(** * new_parse_assets.py: JSON device inventory rendered as a three-sheet workbook

    A shallow embedding of [src/new_parse_assets.py]:

    - the record classes [OS], [Software], [Vulnerability], [Device] and
      their [from_dict] class methods, over the values [json.load] returns;
    - the part of the openpyxl worksheet interface the script uses
      ([ws.cell], [merge_cells], [ws.columns], [ws.iter_rows], column and row
      dimensions), as a dictionary of cells keyed by (row, column);
    - [save_to_excel] and [main], statement by statement.

    Python [str] is a sequence of code points, so strings are lists of code
    points and [len] is the list length.  The product [(max_length + 2) * 1.2]
    is a binary floating-point product in the source; it is computed here in
    exact rationals.  The spreadsheet library is taken at its interface: a
    cell holds the value it was given, and the encoding of the file written
    by [wb.save] is not modelled. *)

From Stdlib Require Import QArith Qminmax Ascii String.
From stdpp Require Import gmap strings list fin_maps pretty.


(** ** Python strings *)

Definition pystr := list N.

(** An ASCII literal as a Python string. *)
Definition py (s : string) : pystr := N_of_ascii <$> list_ascii_of_string s.
Coercion py : string >-> pystr.

(** [sep.join(parts)] *)
Fixpoint join (sep : pystr) (parts : list pystr) : pystr :=
  match parts with
  | [] => []
  | [x] => x
  | x :: rest => x ++ sep ++ join sep rest
  end.

(** [s.split(sep)] for a one-character separator. *)
Fixpoint split (sep : N) (s : pystr) : list pystr :=
  match s with
  | [] => [[]]
  | c :: rest =>
      if N.eqb c sep then [] :: split sep rest
      else match split sep rest with
           | [] => [[c]]
           | w :: ws => (c :: w) :: ws
           end
  end.

(** [c in s] for a one-character [c]. *)
Definition contains (c : N) (s : pystr) : bool := existsb (N.eqb c) s.

Definition newline : N := 10.

(** [str(z)] for an [int]. *)
Definition str_int (z : Z) : pystr := py (pretty z).

(** [enumerate(l, start)] *)
Definition enumerate {A} (l : list A) (start : nat) : list (nat * A) :=
  zip (seq start (length l)) l.

(** [range(a, b)] *)
Definition range (a b : nat) : list nat := seq a (b - a).

(** ** Values returned by [json.load] *)

#[warnings="-register-all"]
Inductive json :=
  | JNull
  | JBool (b : bool)
  | JInt (z : Z)
  | JFloat (q : Q)
  | JStr (s : pystr)
  | JArr (l : list json)
  | JObj (m : gmap pystr json).

(** ** Exceptions and the error monad *)

Inductive exn :=
  | KeyError (key : pystr)
  | TypeError
  | FileNotFoundError
  | PermissionError
  | IsADirectoryError
  | UnicodeDecodeError
  | JSONDecodeError.

Inductive result (A : Type) :=
  | Ok (a : A)
  | Raise (e : exn).
Arguments Ok {A} a.
Arguments Raise {A} e.

#[export] Instance result_ret : MRet result := λ A a, Ok a.
#[export] Instance result_bind : MBind result := λ A B f r,
  match r with
  | Ok a => f a
  | Raise e => Raise e
  end.

(** [data[key]] with a string key: only a [dict] can be subscripted by a
    string; a missing key raises [KeyError(key)]. *)
Definition subscript (data : json) (key : pystr) : result json :=
  match data with
  | JObj m =>
      match m !! key with
      | Some v => Ok v
      | None => Raise (KeyError key)
      end
  | _ => Raise TypeError
  end.

(** [for item in v]: a list yields its elements, a [dict] its keys, a [str]
    its characters; the other values are not iterable.  (The keys come in the
    map's order, not in insertion order; every key is a [str], on which the
    callers below raise the same [TypeError] whatever the order.) *)
Definition iter (v : json) : result (list json) :=
  match v with
  | JArr l => Ok l
  | JObj m => Ok (JStr <$> (map_to_list m).*1)
  | JStr s => Ok ((λ c, JStr [c]) <$> s)
  | _ => Raise TypeError
  end.

(** The declared parameter types of the constructors ([name: str],
    [severity: int], [cve: List[str]], [exploit_exists: bool]).  Python does
    not enforce them; a value of another type yields [None] here, which
    marks an object the renderer's model does not cover. *)
Definition as_str (v : json) : option pystr :=
  match v with JStr s => Some s | _ => None end.
Definition as_int (v : json) : option Z :=
  match v with JInt z => Some z | _ => None end.
Definition as_bool (v : json) : option bool :=
  match v with JBool b => Some b | _ => None end.
Definition as_strs (v : json) : option (list pystr) :=
  match v with JArr l => mapM as_str l | _ => None end.

(** ** The record classes *)

Module OS.
Record t := { name : pystr; version : pystr }.

Definition init (name version : json) : option t :=
  name ← as_str name; version ← as_str version;
  Some {| name := name; version := version |}.

Definition from_dict (data : json) : result (option t) :=
  name ← subscript data "name";
  version ← subscript data "version";
  mret (init name version).
End OS.

Module Software.
Record t := { name : pystr; version : pystr; vendor : pystr }.

Definition init (name version vendor : json) : option t :=
  name ← as_str name; version ← as_str version; vendor ← as_str vendor;
  Some {| name := name; version := version; vendor := vendor |}.

Definition from_dict (data : json) : result (option t) :=
  name ← subscript data "name";
  version ← subscript data "version";
  vendor ← subscript data "vendor";
  mret (init name version vendor).
End Software.

Module Vulnerability.
Record t := {
  kaspersky_id : pystr;
  product_name : pystr;
  description_url : pystr;
  recommended_major_patch : pystr;
  recommended_minor_patch : pystr;
  severity_str : pystr;
  severity : Z;
  cve : list pystr;
  exploit_exists : bool;
  malware_exists : bool }.

Definition init (kaspersky_id product_name description_url
    recommended_major_patch recommended_minor_patch severity_str severity
    cve exploit_exists malware_exists : json) : option t :=
  kaspersky_id ← as_str kaspersky_id;
  product_name ← as_str product_name;
  description_url ← as_str description_url;
  recommended_major_patch ← as_str recommended_major_patch;
  recommended_minor_patch ← as_str recommended_minor_patch;
  severity_str ← as_str severity_str;
  severity ← as_int severity;
  cve ← as_strs cve;
  exploit_exists ← as_bool exploit_exists;
  malware_exists ← as_bool malware_exists;
  Some {| kaspersky_id := kaspersky_id; product_name := product_name;
          description_url := description_url;
          recommended_major_patch := recommended_major_patch;
          recommended_minor_patch := recommended_minor_patch;
          severity_str := severity_str; severity := severity; cve := cve;
          exploit_exists := exploit_exists;
          malware_exists := malware_exists |}.

Definition from_dict (data : json) : result (option t) :=
  kaspersky_id ← subscript data "kasperskyID";
  product_name ← subscript data "productName";
  description_url ← subscript data "descriptionURL";
  recommended_major_patch ← subscript data "recommendedMajorPatch";
  recommended_minor_patch ← subscript data "recommendedMinorPatch";
  severity_str ← subscript data "severityStr";
  severity ← subscript data "severity";
  cve ← subscript data "cve";
  exploit_exists ← subscript data "exploitExists";
  malware_exists ← subscript data "malwareExists";
  mret (init kaspersky_id product_name description_url
          recommended_major_patch recommended_minor_patch severity_str
          severity cve exploit_exists malware_exists).
End Vulnerability.

Module Device.
Record t := {
  name : pystr;
  fqdn : list pystr;
  ip_addresses : list pystr;
  mac_addresses : list pystr;
  owner : pystr;
  os : OS.t;
  software : list Software.t;
  vulnerabilities : list Vulnerability.t }.

Definition init (name fqdn ip_addresses mac_addresses owner : json)
    (os : option OS.t) (software : list (option Software.t))
    (vulnerabilities : list (option Vulnerability.t)) : option t :=
  name ← as_str name;
  fqdn ← as_strs fqdn;
  ip_addresses ← as_strs ip_addresses;
  mac_addresses ← as_strs mac_addresses;
  owner ← as_str owner;
  os ← os;
  software ← mapM id software;
  vulnerabilities ← mapM id vulnerabilities;
  Some {| name := name; fqdn := fqdn; ip_addresses := ip_addresses;
          mac_addresses := mac_addresses; owner := owner; os := os;
          software := software; vulnerabilities := vulnerabilities |}.

Definition from_dict (data : json) : result (option t) :=
  name ← subscript data "name";
  fqdn ← subscript data "fqdn";
  ip_addresses ← subscript data "ipAddresses";
  mac_addresses ← subscript data "macAddresses";
  owner ← subscript data "owner";
  os ← subscript data "os" ≫= OS.from_dict;
  software ←
    (subscript data "software" ≫= iter) ≫= mapM (M:=result) Software.from_dict;
  vulnerabilities ←
    (subscript data "vulnerabilities" ≫= iter)
      ≫= mapM (M:=result) Vulnerability.from_dict;
  mret (init name fqdn ip_addresses mac_addresses owner os software
          vulnerabilities).
End Device.

(** ** The openpyxl interface used by the script *)

(** What a cell can hold. *)
Inductive cell_value :=
  | VNone
  | VStr (s : pystr)
  | VInt (z : Z)
  | VBool (b : bool).

Module Font.
Record t := { bold : bool }.
Definition default : t := {| bold := false |}.
End Font.

Module Alignment.
Record t := {
  horizontal : option pystr;
  vertical : option pystr;
  wrap_text : bool }.
Definition default : t :=
  {| horizontal := None; vertical := None; wrap_text := false |}.
End Alignment.

Module Side.
Record t := { style : option pystr }.
Definition default : t := {| style := None |}.
End Side.

Module Border.
Record t := { left : Side.t; right : Side.t; top : Side.t; bottom : Side.t }.
Definition default : t :=
  {| left := Side.default; right := Side.default;
     top := Side.default; bottom := Side.default |}.
End Border.

Module Cell.
Record t := {
  value : cell_value;
  font : Font.t;
  alignment : Alignment.t;
  border : Border.t }.

(** A cell as [ws.cell] creates it. *)
Definition blank : t :=
  {| value := VNone; font := Font.default;
     alignment := Alignment.default; border := Border.default |}.

Definition set_value (v : cell_value) (c : t) : t :=
  {| value := v; font := font c; alignment := alignment c;
     border := border c |}.
Definition set_font (f : Font.t) (c : t) : t :=
  {| value := value c; font := f; alignment := alignment c;
     border := border c |}.
Definition set_alignment (a : Alignment.t) (c : t) : t :=
  {| value := value c; font := font c; alignment := a;
     border := border c |}.
Definition set_border (b : Border.t) (c : t) : t :=
  {| value := value c; font := font c; alignment := alignment c;
     border := b |}.
End Cell.

Module CellRange.
Record t := { min_row : nat; min_col : nat; max_row : nat; max_col : nat }.
End CellRange.

Module Worksheet.
(** [cells] is keyed by (row, column), both counted from 1.  Column
    dimensions are keyed by the column index, which stands for the column
    letter the source uses as the key. *)
Record t := {
  cells : gmap (nat * nat) Cell.t;
  merged_cells : list CellRange.t;
  column_dimensions : gmap nat Q;
  row_dimensions : gmap nat nat }.

Definition empty : t :=
  {| cells := ∅; merged_cells := []; column_dimensions := ∅;
     row_dimensions := ∅ |}.

Definition get (ws : t) (row column : nat) : Cell.t :=
  default Cell.blank (cells ws !! (row, column)).

(** [if value is not None: cell.value = value] *)
Definition assign (v : cell_value) (c : Cell.t) : Cell.t :=
  match v with
  | VNone => c
  | _ => Cell.set_value v c
  end.

(** The cell at (row, column), created when absent, is replaced by
    [change] of it. *)
Definition touch (row column : nat) (change : Cell.t → Cell.t) (ws : t) : t :=
  {| cells := <[(row, column) := change (get ws row column)]> (cells ws);
     merged_cells := merged_cells ws;
     column_dimensions := column_dimensions ws;
     row_dimensions := row_dimensions ws |}.

(** [ws.cell(row=row, column=column, value=v)] followed by the attribute
    assignments [attrs] on the returned cell.  The cell is created when
    absent; its value is assigned only when [v] is not [None]. *)
Definition cell (row column : nat) (v : cell_value) (attrs : Cell.t → Cell.t)
    (ws : t) : t :=
  touch row column (λ c, attrs (assign v c)) ws.

(** [ws.merge_cells(start_row=.., start_column=.., end_row=.., end_column=..)]:
    the range is recorded.  What the library then does to the cells the
    range covers, other than its first, is not part of this model. *)
Definition merge_cells (start_row start_column end_row end_column : nat)
    (ws : t) : t :=
  {| cells := cells ws;
     merged_cells := merged_cells ws ++
       [{| CellRange.min_row := start_row; CellRange.min_col := start_column;
           CellRange.max_row := end_row; CellRange.max_col := end_column |}];
     column_dimensions := column_dimensions ws;
     row_dimensions := row_dimensions ws |}.

(** [ws.column_dimensions[column].width = width] *)
Definition set_width (column : nat) (width : Q) (ws : t) : t :=
  {| cells := cells ws; merged_cells := merged_cells ws;
     column_dimensions := <[column := width]> (column_dimensions ws);
     row_dimensions := row_dimensions ws |}.

(** [ws.row_dimensions[row].height = height] *)
Definition set_height (row height : nat) (ws : t) : t :=
  {| cells := cells ws; merged_cells := merged_cells ws;
     column_dimensions := column_dimensions ws;
     row_dimensions := <[row := height]> (row_dimensions ws) |}.

(** [ws.max_row], [ws.max_column]: the largest row and column index that
    has a cell. *)
Definition max_row (ws : t) : nat := max_list ((map_to_list (cells ws)).*1.*1).
Definition max_column (ws : t) : nat :=
  max_list ((map_to_list (cells ws)).*1.*2).

(** [ws.columns]: for each column 1..max_column, its index and its cells in
    rows 1..max_row, top to bottom. *)
Definition columns (ws : t) : list (nat * list Cell.t) :=
  (λ column, (column, (λ row, get ws row column) <$> seq 1 (max_row ws)))
    <$> seq 1 (max_column ws).

(** [ws.iter_rows()]: for each row 1..max_row, its index and its cells in
    columns 1..max_column, left to right. *)
Definition iter_rows (ws : t) : list (nat * list Cell.t) :=
  (λ row, (row, (λ column, get ws row column) <$> seq 1 (max_column ws)))
    <$> seq 1 (max_row ws).
End Worksheet.

Module Workbook.
(** The sheets in order, each under its title. *)
Definition t := list (pystr * Worksheet.t).

(** [Workbook()] comes with one sheet titled "Sheet". *)
Definition new : t := [(py "Sheet", Worksheet.empty)].

Definition sheetnames (wb : t) : list pystr := wb.*1.

(** [wb.remove(wb[title])] *)
Definition remove (title : pystr) (wb : t) : t :=
  filter (λ s, s.1 ≠ title) wb.

(** [wb.create_sheet(title)] *)
Definition create_sheet (title : pystr) (wb : t) : t :=
  wb ++ [(title, Worksheet.empty)].

(** [wb[title]] *)
Definition sheet (wb : t) (title : pystr) : option Worksheet.t :=
  (λ found, found.2.2) <$> list_find (λ s, s.1 = title) wb.

(** The worksheet objects are shared with the workbook: a statement
    sequence [f] run on the worksheet titled [title] updates it in place. *)
Definition on_sheet (title : pystr) (f : Worksheet.t → Worksheet.t) (wb : t) : t :=
  (λ s, if decide (s.1 = title) then (s.1, f s.2) else s) <$> wb.
End Workbook.

(** ** [save_to_excel] *)

(** Format styles (lines 116-122). *)
Definition header_font : Font.t := {| Font.bold := true |}.
Definition center_alignment : Alignment.t :=
  {| Alignment.horizontal := Some (py "center");
     Alignment.vertical := Some (py "center");
     Alignment.wrap_text := true |}.
Definition wrap_alignment : Alignment.t :=
  {| Alignment.horizontal := None;
     Alignment.vertical := Some (py "top");
     Alignment.wrap_text := true |}.
Definition thin : Side.t := {| Side.style := Some (py "thin") |}.
Definition thin_border : Border.t :=
  {| Border.left := thin; Border.right := thin;
     Border.top := thin; Border.bottom := thin |}.

(** The header loop, the same for the three sheets (lines 128-132, 151-155,
    189-193). *)
Definition write_headers (headers : list pystr) (ws : Worksheet.t) : Worksheet.t :=
  foldl (λ ws '(col_num, header),
           Worksheet.cell 1 col_num (VStr header)
             (λ cell, Cell.set_border thin_border
                        (Cell.set_alignment center_alignment
                           (Cell.set_font header_font cell))) ws)
        ws (enumerate headers 1).

(** [for col in range(1, stop): ws.cell(row=row_num, column=col).border = thin_border] *)
Definition apply_borders (row_num stop : nat) (ws : Worksheet.t) : Worksheet.t :=
  foldl (λ ws col, Worksheet.cell row_num col VNone (Cell.set_border thin_border) ws)
        ws (range 1 stop).

(** [ws.cell(row=row_num, column=column, value=v).alignment = wrap_alignment] *)
Definition put (row_num column : nat) (v : cell_value) (ws : Worksheet.t) : Worksheet.t :=
  Worksheet.cell row_num column v (Cell.set_alignment wrap_alignment) ws.

(** *** Devices sheet (lines 125-145) *)

Definition devices_headers : list pystr :=
  [py "Name"; py "FQDN"; py "IP Addresses"; py "MAC Addresses"; py "Owner";
   py "OS Name"; py "OS Version"].

Definition devices_row (devices_ws : Worksheet.t) (item : nat * Device.t) : Worksheet.t :=
  let '(row_num, device) := item in
  let ws := put row_num 1 (VStr (Device.name device)) devices_ws in
  let ws := put row_num 2 (VStr (join ", " (Device.fqdn device))) ws in
  let ws := put row_num 3 (VStr (join ", " (Device.ip_addresses device))) ws in
  let ws := put row_num 4 (VStr (join ", " (Device.mac_addresses device))) ws in
  let ws := put row_num 5 (VStr (Device.owner device)) ws in
  let ws := put row_num 6 (VStr (OS.name (Device.os device))) ws in
  let ws := put row_num 7 (VStr (OS.version (Device.os device))) ws in
  apply_borders row_num 8 ws.

Definition write_devices (devices : list Device.t) (devices_ws : Worksheet.t) : Worksheet.t :=
  foldl devices_row (write_headers devices_headers devices_ws) (enumerate devices 2).

(** *** Software sheet (lines 148-181) *)

(** U+FFFD, the character the first, third and fourth header literals of
    the Software sheet and the first of the Vulnerability sheet consist of in
    the source file. *)
Definition replacement_character : N := 65533.

Definition software_headers : list pystr :=
  [replicate 2 replacement_character; py "Software Name";
   replicate 6 replacement_character; replicate 6 replacement_character].

(** Body of [for software in device.software] (lines 168-177). *)
Definition software_item (device : Device.t) (start_row : nat)
    (st : Worksheet.t * nat) (software : Software.t) : Worksheet.t * nat :=
  let '(software_ws, row_num) := st in
  let ws := put row_num 1
              (VStr (if decide (row_num = start_row) then Device.name device else []))
              software_ws in
  let ws := put row_num 2 (VStr (Software.name software)) ws in
  let ws := put row_num 3 (VStr (Software.version software)) ws in
  let ws := put row_num 4 (VStr (Software.vendor software)) ws in
  let ws := apply_borders row_num 5 ws in
  (ws, row_num + 1).

(** Body of [for device in devices] (lines 159-181). *)
Definition software_device (st : Worksheet.t * nat) (device : Device.t) : Worksheet.t * nat :=
  let '(software_ws, row_num) := st in
  let start_row := row_num in
  match Device.software device with
  | [] =>
      let ws := put row_num 1 (VStr (Device.name device)) software_ws in
      let ws := apply_borders row_num 5 ws in
      (ws, row_num + 1)
  | _ =>
      let '(ws, row_num) :=
        foldl (software_item device start_row) (software_ws, row_num)
              (Device.software device) in
      if decide (start_row + 1 < row_num)
      then (Worksheet.merge_cells start_row 1 (row_num - 1) 1 ws, row_num)
      else (ws, row_num)
  end.

Definition software_loop (devices : list Device.t) (st : Worksheet.t * nat) : Worksheet.t * nat :=
  foldl software_device st devices.

Definition write_software (devices : list Device.t) (software_ws : Worksheet.t) : Worksheet.t :=
  (software_loop devices (write_headers software_headers software_ws, 2)).1.

(** *** Vulnerability sheet (lines 184-226) *)

Definition vuln_headers : list pystr :=
  [replicate 2 replacement_character; py "Kaspersky ID"; py "Product Name";
   py "Severity"; py "Severity Level"; py "CVE IDs"; py "Exploit Exists";
   py "Malware Exists"; py "Recommended Major Patch";
   py "Recommended Minor Patch"; py "Description URL"].

(** Body of [for vuln in device.vulnerabilities] (lines 206-222). *)
Definition vuln_item (device : Device.t) (start_row : nat)
    (st : Worksheet.t * nat) (vuln : Vulnerability.t) : Worksheet.t * nat :=
  let '(vulnerabilities_ws, row_num) := st in
  let ws := put row_num 1
              (VStr (if decide (row_num = start_row) then Device.name device else []))
              vulnerabilities_ws in
  let ws := put row_num 2 (VStr (Vulnerability.kaspersky_id vuln)) ws in
  let ws := put row_num 3 (VStr (Vulnerability.product_name vuln)) ws in
  let ws := put row_num 4 (VInt (Vulnerability.severity vuln)) ws in
  let ws := put row_num 5 (VStr (Vulnerability.severity_str vuln)) ws in
  let ws := put row_num 6 (VStr (join ", " (Vulnerability.cve vuln))) ws in
  let ws := put row_num 7
              (VStr (if Vulnerability.exploit_exists vuln then py "Yes" else py "No")) ws in
  let ws := put row_num 8
              (VStr (if Vulnerability.malware_exists vuln then py "Yes" else py "No")) ws in
  let ws := put row_num 9 (VStr (Vulnerability.recommended_major_patch vuln)) ws in
  let ws := put row_num 10 (VStr (Vulnerability.recommended_minor_patch vuln)) ws in
  let ws := put row_num 11 (VStr (Vulnerability.description_url vuln)) ws in
  let ws := apply_borders row_num 12 ws in
  (ws, row_num + 1).

(** Body of [for device in devices] (lines 197-226). *)
Definition vuln_device (st : Worksheet.t * nat) (device : Device.t) : Worksheet.t * nat :=
  let '(vulnerabilities_ws, row_num) := st in
  let start_row := row_num in
  match Device.vulnerabilities device with
  | [] =>
      let ws := put row_num 1 (VStr (Device.name device)) vulnerabilities_ws in
      let ws := apply_borders row_num 12 ws in
      (ws, row_num + 1)
  | _ =>
      let '(ws, row_num) :=
        foldl (vuln_item device start_row) (vulnerabilities_ws, row_num)
              (Device.vulnerabilities device) in
      if decide (start_row + 1 < row_num)
      then (Worksheet.merge_cells start_row 1 (row_num - 1) 1 ws, row_num)
      else (ws, row_num)
  end.

Definition vuln_loop (devices : list Device.t) (st : Worksheet.t * nat) : Worksheet.t * nat :=
  foldl vuln_device st devices.

Definition write_vulnerabilities (devices : list Device.t)
    (vulnerabilities_ws : Worksheet.t) : Worksheet.t :=
  (vuln_loop devices (write_headers vuln_headers vulnerabilities_ws, 2)).1.

(** *** Column widths and row heights (lines 229-258) *)

Definition MAX_COLUMN_WIDTH : Q := 100.

(** Truth value of a cell value, as [if cell.value] tests it. *)
Definition truthy (v : cell_value) : bool :=
  match v with
  | VNone => false
  | VStr s => negb (bool_decide (s = []))
  | VInt z => negb (Z.eqb z 0)
  | VBool b => b
  end.

(** [str(cell.value)] *)
Definition str (v : cell_value) : pystr :=
  match v with
  | VNone => py "None"
  | VStr s => s
  | VInt z => str_int z
  | VBool b => if b then py "True" else py "False"
  end.

(** The inner loop over the cells of one column (lines 236-243); [str] and
    [len] raise on none of the values a cell holds here, so the [try] never
    reaches its handler. *)
Definition column_max_length (col : list Cell.t) : nat :=
  foldl (λ max_length cell,
           if truthy (Cell.value cell)
              && bool_decide (max_length < length (str (Cell.value cell)))
           then length (str (Cell.value cell))
           else max_length)
        0 col.

(** [min((max_length + 2) * 1.2, MAX_COLUMN_WIDTH)] *)
Definition adjusted_width (max_length : nat) : Q :=
  Qmin (inject_Z (Z.of_nat (max_length + 2)) * 1.2) MAX_COLUMN_WIDTH.

Definition adjust_column_widths (ws : Worksheet.t) : Worksheet.t :=
  foldl (λ ws '(column, col),
           Worksheet.set_width column (adjusted_width (column_max_length col)) ws)
        ws (Worksheet.columns ws).

(** The inner loop over the cells of one row (lines 251-256). *)
Definition row_max_lines (row : list Cell.t) : nat :=
  foldl (λ max_lines cell,
           if truthy (Cell.value cell)
              && contains newline (str (Cell.value cell))
           then
             let lines := length (split newline (str (Cell.value cell))) in
             if decide (max_lines < lines) then lines else max_lines
           else max_lines)
        1 row.

Definition adjust_row_heights (ws : Worksheet.t) : Worksheet.t :=
  foldl (λ ws '(row_index, row),
           let max_lines := row_max_lines row in
           if decide (1 < max_lines)
           then Worksheet.set_height row_index (15 * max_lines) ws
           else ws)
        ws (Worksheet.iter_rows ws).

(** *** The workbook handed to [wb.save] (lines 104-258) *)

Definition workbook (devices : list Device.t) : Workbook.t :=
  let wb := Workbook.new in
  let wb := if decide (py "Sheet" ∈ Workbook.sheetnames wb)
            then Workbook.remove (py "Sheet") wb else wb in
  let wb := Workbook.create_sheet (py "Device") wb in
  let wb := Workbook.create_sheet (py "Software") wb in
  let wb := Workbook.create_sheet (py "Vulnerability") wb in
  let wb := Workbook.on_sheet (py "Device") (write_devices devices) wb in
  let wb := Workbook.on_sheet (py "Software") (write_software devices) wb in
  let wb := Workbook.on_sheet (py "Vulnerability") (write_vulnerabilities devices) wb in
  foldl (λ wb sheet,
           Workbook.on_sheet sheet
             (λ ws, adjust_row_heights (adjust_column_widths ws)) wb)
        wb (Workbook.sheetnames wb).

(** What a run leaves behind: lines printed and files written, in order. *)
Inductive event :=
  | Print (line : pystr)
  | Save (path : pystr) (wb : Workbook.t).

Definition save_to_excel (devices : list Device.t) (output_file : pystr) : list event :=
  [Save output_file (workbook devices);
   Print (py "Data successfully saved to " ++ output_file)].

(** ** [main] *)

(** How a run ends: [main] returns, an exception leaves it uncaught (the
    interpreter prints its traceback), or the objects built do not have the
    declared field types and the run is outside this model. *)
Inductive status :=
  | Returned
  | Uncaught (e : exn)
  | Unmodelled.

(** [load] is the outcome of lines 266-267, opening [response.json] and
    [json.load]: the parsed value or the exception raised. *)
Definition main (load : result json) : list event * status :=
  match load with
  | Raise FileNotFoundError =>
      ([Print (py "Error: File 'response.json' not found.")], Returned)
  | Raise JSONDecodeError =>
      ([Print (py "Error: Invalid JSON format in 'response.json'.")], Returned)
  | Raise e => ([], Uncaught e)
  | Ok data =>
      match iter data ≫= mapM (M:=result) Device.from_dict with
      | Raise e => ([], Uncaught e)
      | Ok objects =>
          match mapM id objects with
          | None => ([], Unmodelled)
          | Some devices =>
              (save_to_excel devices (py "devices_grouped_rows.xlsx") ++
               [Print (py "Processed " ++ str_int (Z.of_nat (length devices)) ++
                       py " devices. Results saved to devices_grouped_rows.xlsx")],
               Returned)
          end
      end
  end.

(** * Vocabulary of the statements *)

(** ** A sheet read as a list of rows *)

(** The three shapes of cell the script produces. *)
Definition header_cell (header : pystr) : Cell.t :=
  {| Cell.value := VStr header; Cell.font := header_font;
     Cell.alignment := center_alignment; Cell.border := thin_border |}.
Definition data_cell (v : cell_value) : Cell.t :=
  {| Cell.value := v; Cell.font := Font.default;
     Cell.alignment := wrap_alignment; Cell.border := thin_border |}.
Definition border_cell : Cell.t :=
  {| Cell.value := VNone; Cell.font := Font.default;
     Cell.alignment := Alignment.default; Cell.border := thin_border |}.

(** A row of [width] cells: the given values, then cells that only have a
    border. *)
Definition data_row (width : nat) (values : list cell_value) : list Cell.t :=
  (data_cell <$> values) ++ replicate (width - length values) border_cell.

Definition lookup_rows (rows : list (list Cell.t)) (row column : nat) : option Cell.t :=
  match row, column with
  | S r, S c => rows !! r ≫= (.!! c)
  | _, _ => None
  end.

(** [ws] holds exactly the cells of [rows], the first of them in row 1. *)
Definition laid_out (ws : Worksheet.t) (rows : list (list Cell.t)) : Prop :=
  ∀ row column, Worksheet.cells ws !! (row, column) = lookup_rows rows row column.

(** The values of row [row], columns 1..max_column, and of column [column],
    rows 1..max_row. *)
Definition row_values (ws : Worksheet.t) (row : nat) : list cell_value :=
  (λ column, Cell.value (Worksheet.get ws row column)) <$> seq 1 (Worksheet.max_column ws).

(** [range] covers the cell at (row, column). *)
Definition covers (range : CellRange.t) (row column : nat) : Prop :=
  CellRange.min_row range ≤ row ≤ CellRange.max_row range ∧
  CellRange.min_col range ≤ column ≤ CellRange.max_col range.

(** Column 1 of rows [first]..[last]. *)
Definition name_cells (first last : nat) : CellRange.t :=
  {| CellRange.min_row := first; CellRange.min_col := 1;
     CellRange.max_row := last; CellRange.max_col := 1 |}.

(** ** The statements of one row as a list of changes *)

Definition run_row (row : nat) (ops : list (nat * (Cell.t → Cell.t)))
    (ws : Worksheet.t) : Worksheet.t :=
  foldl (λ ws op, Worksheet.touch row op.1 op.2 ws) ws ops.

Definition cell_after (ops : list (nat * (Cell.t → Cell.t))) (column : nat)
    (c : Cell.t) : Cell.t :=
  foldl (λ c op, if decide (op.1 = column) then op.2 c else c) c ops.

Definition build_row (width : nat) (ops : list (nat * (Cell.t → Cell.t))) : list Cell.t :=
  (λ column, cell_after ops column Cell.blank) <$> seq 1 width.

(** The [put]s of a row's values in columns 1, 2, ..., then [apply_borders]. *)
Definition value_ops (values : list cell_value) : list (nat * (Cell.t → Cell.t)) :=
  (λ p, (p.1, λ c, Cell.set_alignment wrap_alignment (Worksheet.assign p.2 c)))
    <$> enumerate values 1.
Definition border_ops (stop : nat) : list (nat * (Cell.t → Cell.t)) :=
  (λ col, (col, λ c, Cell.set_border thin_border (Worksheet.assign VNone c)))
    <$> range 1 stop.
Definition row_ops (width : nat) (values : list cell_value) : list (nat * (Cell.t → Cell.t)) :=
  value_ops values ++ border_ops (S width).
Definition header_ops (headers : list pystr) : list (nat * (Cell.t → Cell.t)) :=
  (λ p, (p.1, λ c, Cell.set_border thin_border
                     (Cell.set_alignment center_alignment
                        (Cell.set_font header_font (Worksheet.assign (VStr p.2) c)))))
    <$> enumerate headers 1.

(** ** The grouping loop, once for both sheets *)

(** The values written for one device, one software item, one
    vulnerability (columns 1.., 2.., 2..). *)
Definition device_fields (device : Device.t) : list cell_value :=
  [VStr (Device.name device);
   VStr (join (py ", ") (Device.fqdn device));
   VStr (join (py ", ") (Device.ip_addresses device));
   VStr (join (py ", ") (Device.mac_addresses device));
   VStr (Device.owner device);
   VStr (OS.name (Device.os device));
   VStr (OS.version (Device.os device))].
Definition software_fields (software : Software.t) : list cell_value :=
  [VStr (Software.name software);
   VStr (Software.version software);
   VStr (Software.vendor software)].
Definition vuln_fields (vuln : Vulnerability.t) : list cell_value :=
  [VStr (Vulnerability.kaspersky_id vuln);
   VStr (Vulnerability.product_name vuln);
   VInt (Vulnerability.severity vuln);
   VStr (Vulnerability.severity_str vuln);
   VStr (join (py ", ") (Vulnerability.cve vuln));
   VStr (if Vulnerability.exploit_exists vuln then py "Yes" else py "No");
   VStr (if Vulnerability.malware_exists vuln then py "Yes" else py "No");
   VStr (Vulnerability.recommended_major_patch vuln);
   VStr (Vulnerability.recommended_minor_patch vuln);
   VStr (Vulnerability.description_url vuln)].

Section grouped.
Context {Item : Type}.
Variable items : Device.t → list Item.
Variable fields : Item → list cell_value.
Variable width : nat.

Definition grouped_item (device : Device.t) (start_row : nat)
    (st : Worksheet.t * nat) (item : Item) : Worksheet.t * nat :=
  let '(ws, row_num) := st in
  (run_row row_num
     (row_ops width
        (VStr (if decide (row_num = start_row) then Device.name device else [])
           :: fields item)) ws,
   row_num + 1).

Definition grouped_device (st : Worksheet.t * nat) (device : Device.t) : Worksheet.t * nat :=
  let '(ws, row_num) := st in
  let start_row := row_num in
  match items device with
  | [] => (run_row row_num (row_ops width [VStr (Device.name device)]) ws, row_num + 1)
  | _ =>
      let '(ws, row_num) :=
        foldl (grouped_item device start_row) (ws, row_num) (items device) in
      if decide (start_row + 1 < row_num)
      then (Worksheet.merge_cells start_row 1 (row_num - 1) 1 ws, row_num)
      else (ws, row_num)
  end.

Definition grouped_loop (devices : list Device.t) (st : Worksheet.t * nat) : Worksheet.t * nat :=
  foldl grouped_device st devices.

(** The rows of one device, as values. *)
Definition block (device : Device.t) : list (list cell_value) :=
  match items device with
  | [] => [[VStr (Device.name device)]]
  | item :: rest =>
      (VStr (Device.name device) :: fields item)
        :: ((λ item, VStr [] :: fields item) <$> rest)
  end.

(** The merged ranges of devices whose first row is [row_num]. *)
Fixpoint merges (row_num : nat) (devices : list Device.t) : list CellRange.t :=
  match devices with
  | [] => []
  | device :: rest =>
      (if decide (1 < length (items device))
       then [name_cells row_num (row_num + length (items device) - 1)]
       else [])
      ++ merges (row_num + length (block device)) rest
  end.
End grouped.

(** The two grouped sheets. *)
Inductive grouped_sheet := SoftwareSheet | VulnerabilitySheet.

Definition title (kind : grouped_sheet) : pystr :=
  match kind with
  | SoftwareSheet => py "Software"
  | VulnerabilitySheet => py "Vulnerability"
  end.

Definition sheet_width (kind : grouped_sheet) : nat :=
  match kind with
  | SoftwareSheet => 4
  | VulnerabilitySheet => 11
  end.

(** The item list of a device on this sheet, each item as the values of
    columns 2.. *)
Definition item_fields (kind : grouped_sheet) (device : Device.t) : list (list cell_value) :=
  match kind with
  | SoftwareSheet => software_fields <$> Device.software device
  | VulnerabilitySheet => vuln_fields <$> Device.vulnerabilities device
  end.

(** [row_num] once the loop of this sheet has run over [devices]. *)
Definition row_after (kind : grouped_sheet) (devices : list Device.t) : nat :=
  match kind with
  | SoftwareSheet =>
      (software_loop devices (write_headers software_headers Worksheet.empty, 2)).2
  | VulnerabilitySheet =>
      (vuln_loop devices (write_headers vuln_headers Worksheet.empty, 2)).2
  end.

(** The sheet as the loop leaves it, before the widths and heights are set. *)
Definition written (kind : grouped_sheet) (devices : list Device.t) : Worksheet.t :=
  match kind with
  | SoftwareSheet => write_software devices Worksheet.empty
  | VulnerabilitySheet => write_vulnerabilities devices Worksheet.empty
  end.

Definition headers_of (kind : grouped_sheet) : list pystr :=
  match kind with
  | SoftwareSheet => software_headers
  | VulnerabilitySheet => vuln_headers
  end.

(** The two sizing passes, as the loop over the sheets applies them. *)
Definition sized (ws : Worksheet.t) : Worksheet.t :=
  adjust_row_heights (adjust_column_widths ws).

(** ** Column widths and row heights *)



Definition has_newline (v : cell_value) : Prop :=
  contains newline (str v) = true.

Definition line_count (v : cell_value) : nat :=
  length (split newline (str v)).

Definition no_bool (v : cell_value) : Prop :=
  match v with VBool _ => False | _ => True end.

(** ** Record types and their declared keys *)

Inductive record_type := TOS | TSoftware | TVulnerability | TDevice.

Definition declared_keys (t : record_type) : list pystr :=
  match t with
  | TOS => [py "name"; py "version"]
  | TSoftware => [py "name"; py "version"; py "vendor"]
  | TVulnerability =>
      [py "kasperskyID"; py "productName"; py "descriptionURL";
       py "recommendedMajorPatch"; py "recommendedMinorPatch"; py "severityStr";
       py "severity"; py "cve"; py "exploitExists"; py "malwareExists"]
  | TDevice =>
      [py "name"; py "fqdn"; py "ipAddresses"; py "macAddresses"; py "owner";
       py "os"; py "software"; py "vulnerabilities"]
  end.

(** [t.from_dict(data)] raises [e]. *)
Definition raises (t : record_type) (data : json) (e : exn) : Prop :=
  match t with
  | TOS => OS.from_dict data = Raise e
  | TSoftware => Software.from_dict data = Raise e
  | TVulnerability => Vulnerability.from_dict data = Raise e
  | TDevice => Device.from_dict data = Raise e
  end.

(** The first of [keys] that [m] lacks. *)
Definition first_missing (keys : list pystr) (m : gmap pystr json) : option pystr :=
  List.find (λ k, bool_decide (m !! k = None)) keys.

(** The keys [Device.from_dict] looks up before it builds a nested record. *)
Definition device_own_keys : list pystr :=
  [py "name"; py "fqdn"; py "ipAddresses"; py "macAddresses"; py "owner"; py "os"].

(** ** The mappings that describe records *)

(** The mapping [json.load] returns for the JSON object that describes a
    record, under the keys its [from_dict] looks up. *)
Definition OS_to_dict (os : OS.t) : gmap pystr json :=
  list_to_map
    [(py "name", JStr (OS.name os)); (py "version", JStr (OS.version os))].

Definition Software_to_dict (software : Software.t) : gmap pystr json :=
  list_to_map
    [(py "name", JStr (Software.name software));
     (py "version", JStr (Software.version software));
     (py "vendor", JStr (Software.vendor software))].

Definition Vulnerability_to_dict (vuln : Vulnerability.t) : gmap pystr json :=
  list_to_map
    [(py "kasperskyID", JStr (Vulnerability.kaspersky_id vuln));
     (py "productName", JStr (Vulnerability.product_name vuln));
     (py "descriptionURL", JStr (Vulnerability.description_url vuln));
     (py "recommendedMajorPatch", JStr (Vulnerability.recommended_major_patch vuln));
     (py "recommendedMinorPatch", JStr (Vulnerability.recommended_minor_patch vuln));
     (py "severityStr", JStr (Vulnerability.severity_str vuln));
     (py "severity", JInt (Vulnerability.severity vuln));
     (py "cve", JArr (JStr <$> Vulnerability.cve vuln));
     (py "exploitExists", JBool (Vulnerability.exploit_exists vuln));
     (py "malwareExists", JBool (Vulnerability.malware_exists vuln))].

Definition Device_to_dict (device : Device.t) : gmap pystr json :=
  list_to_map
    [(py "name", JStr (Device.name device));
     (py "fqdn", JArr (JStr <$> Device.fqdn device));
     (py "ipAddresses", JArr (JStr <$> Device.ip_addresses device));
     (py "macAddresses", JArr (JStr <$> Device.mac_addresses device));
     (py "owner", JStr (Device.owner device));
     (py "os", JObj (OS_to_dict (Device.os device)));
     (py "software",
      JArr ((λ software, JObj (Software_to_dict software)) <$> Device.software device));
     (py "vulnerabilities",
      JArr ((λ vuln, JObj (Vulnerability_to_dict vuln))
              <$> Device.vulnerabilities device))].

(** [t.from_dict(data)] returns an object. *)
Definition returns (t : record_type) (data : json) : Prop :=
  match t with
  | TOS => ∃ r, OS.from_dict data = Ok r
  | TSoftware => ∃ r, Software.from_dict data = Ok r
  | TVulnerability => ∃ r, Vulnerability.from_dict data = Ok r
  | TDevice => ∃ r, Device.from_dict data = Ok r
  end.

(** * Sample inputs *)

Definition os_without_name : gmap pystr json :=
  {[ py "version" := JStr (py "5.10") ]}.

Definition software_without_name : gmap pystr json :=
  <[ py "version" := JStr (py "1.0") ]> {[ py "vendor" := JStr (py "acme") ]}.

(** A device mapping without the key [name]. *)
Definition device_without_name : gmap pystr json :=
  list_to_map
    [(py "fqdn", JArr []); (py "ipAddresses", JArr []);
     (py "macAddresses", JArr []); (py "owner", JStr (py "alice"));
     (py "os", JObj (<[ py "name" := JStr (py "Linux") ]> os_without_name));
     (py "software", JArr []); (py "vulnerabilities", JArr [])].

(** A device mapping without the key [vulnerabilities] whose [os] is a
    number. *)
Definition device_with_numeric_os : gmap pystr json :=
  list_to_map
    [(py "name", JStr (py "host1")); (py "fqdn", JArr []);
     (py "ipAddresses", JArr []); (py "macAddresses", JArr []);
     (py "owner", JStr (py "alice")); (py "os", JInt 5);
     (py "software", JArr [])].

Definition linux : OS.t := {| OS.name := py "Linux"; OS.version := py "5.10" |}.

Definition nginx : Software.t :=
  {| Software.name := py "nginx"; Software.version := py "1.24";
     Software.vendor := py "F5" |}.

Definition openssl : Software.t :=
  {| Software.name := py "openssl"; Software.version := py "3.0";
     Software.vendor := py "OpenSSL" |}.

(** A vulnerability with severity score 0. *)
Definition kla1 : Vulnerability.t :=
  {| Vulnerability.kaspersky_id := py "KLA1";
     Vulnerability.product_name := py "p";
     Vulnerability.description_url := py "u";
     Vulnerability.recommended_major_patch := py "1";
     Vulnerability.recommended_minor_patch := py "0";
     Vulnerability.severity_str := py "Low";
     Vulnerability.severity := 0;
     Vulnerability.cve := [py "CVE-2020-1"; py "CVE-2020-2"];
     Vulnerability.exploit_exists := true;
     Vulnerability.malware_exists := false |}.

(** A device with two software items and one vulnerability. *)
Definition host1 : Device.t :=
  {| Device.name := py "host1"; Device.fqdn := [py "a.example"; py "b.example"];
     Device.ip_addresses := [py "10.0.0.1"]; Device.mac_addresses := [];
     Device.owner := py "alice"; Device.os := linux;
     Device.software := [nginx; openssl]; Device.vulnerabilities := [kla1] |}.

(** A device without software and vulnerabilities whose owner is written
    on two lines. *)
Definition host2 : Device.t :=
  {| Device.name := py "host2"; Device.fqdn := [];
     Device.ip_addresses := []; Device.mac_addresses := [];
     Device.owner := py "ops" ++ [newline] ++ py "team"; Device.os := linux;
     Device.software := []; Device.vulnerabilities := [] |}.

(** * Properties *)

(** ** The record model *)

Lemma subscript_missing (m : gmap pystr json) (k : pystr) :
  m !! k = None → subscript (JObj m) k = Raise (KeyError k).
Proof. intros H. unfold subscript. by rewrite H. Qed.

Lemma subscript_present (m : gmap pystr json) (k : pystr) (v : json) :
  m !! k = Some v → subscript (JObj m) k = Ok v.
Proof. intros H. unfold subscript. by rewrite H. Qed.

Lemma bind_raise {A B} (f : A → result B) (e : exn) : Raise e ≫= f = Raise e.
Proof. reflexivity. Qed.

Lemma bind_ok {A B} (f : A → result B) (a : A) : Ok a ≫= f = f a.
Proof. reflexivity. Qed.

(** One key of a [from_dict]: present, and the evaluation goes on; or
    absent, and it is the first missing key and the error raised. *)
Ltac next_key m k :=
  let v := fresh "v" in
  let E := fresh "E" in
  destruct (m !! k) as [v|] eqn:E;
  [ rewrite (subscript_present m k v E), ?bind_ok;
    rewrite (bool_decide_eq_false_2 (Some v = None)) by discriminate
  | rewrite (subscript_missing m k E), ?bind_raise;
    rewrite (bool_decide_eq_true_2 (None = None)) by reflexivity ].

Lemma OS_first_missing (m : gmap pystr json) (k : pystr) :
  first_missing (declared_keys TOS) m = Some k →
  OS.from_dict (JObj m) = Raise (KeyError k).
Proof.
  unfold first_missing, OS.from_dict, declared_keys, find.
  next_key m (py "name"); [|congruence].
  next_key m (py "version"); [|congruence].
  discriminate.
Qed.

Lemma Software_first_missing (m : gmap pystr json) (k : pystr) :
  first_missing (declared_keys TSoftware) m = Some k →
  Software.from_dict (JObj m) = Raise (KeyError k).
Proof.
  unfold first_missing, Software.from_dict, declared_keys, find.
  next_key m (py "name"); [|congruence].
  next_key m (py "version"); [|congruence].
  next_key m (py "vendor"); [|congruence].
  discriminate.
Qed.

Lemma Vulnerability_first_missing (m : gmap pystr json) (k : pystr) :
  first_missing (declared_keys TVulnerability) m = Some k →
  Vulnerability.from_dict (JObj m) = Raise (KeyError k).
Proof.
  unfold first_missing, Vulnerability.from_dict, declared_keys, find.
  next_key m (py "kasperskyID"); [|congruence].
  next_key m (py "productName"); [|congruence].
  next_key m (py "descriptionURL"); [|congruence].
  next_key m (py "recommendedMajorPatch"); [|congruence].
  next_key m (py "recommendedMinorPatch"); [|congruence].
  next_key m (py "severityStr"); [|congruence].
  next_key m (py "severity"); [|congruence].
  next_key m (py "cve"); [|congruence].
  next_key m (py "exploitExists"); [|congruence].
  next_key m (py "malwareExists"); [|congruence].
  discriminate.
Qed.

Ltac need_key m k :=
  let v := fresh "v" in
  let E := fresh "E" in
  destruct (m !! k) as [v|] eqn:E;
  [ rewrite (subscript_present m k v E), ?bind_ok
  | rewrite (subscript_missing m k E), ?bind_raise; eauto ].

Lemma own_keys_not_nested (k : pystr) :
  k ∈ device_own_keys → k ≠ py "software" ∧ k ≠ py "vulnerabilities".
Proof.
  intros H. unfold device_own_keys in H.
  repeat (apply elem_of_cons in H as [->|H];
          [split; intros E; vm_compute in E; discriminate|]).
  by apply elem_of_nil in H.
Qed.

Lemma Device_first_missing (m : gmap pystr json) (k : pystr) :
  first_missing (declared_keys TDevice) m = Some k →
  k ∈ device_own_keys →
  Device.from_dict (JObj m) = Raise (KeyError k).
Proof.
  intros H Hown. apply own_keys_not_nested in Hown as [Hs Hv]. revert H.
  unfold first_missing, Device.from_dict, declared_keys, find.
  next_key m (py "name"); [|congruence].
  next_key m (py "fqdn"); [|congruence].
  next_key m (py "ipAddresses"); [|congruence].
  next_key m (py "macAddresses"); [|congruence].
  next_key m (py "owner"); [|congruence].
  next_key m (py "os"); [|congruence].
  repeat case_bool_decide; congruence.
Qed.

Lemma Device_missing_fails (m : gmap pystr json) (k : pystr) :
  k ∈ declared_keys TDevice → m !! k = None →
  ∃ e, Device.from_dict (JObj m) = Raise e.
Proof.
  intros Hk Hm. unfold Device.from_dict.
  need_key m (py "name").
  need_key m (py "fqdn").
  need_key m (py "ipAddresses").
  need_key m (py "macAddresses").
  need_key m (py "owner").
  need_key m (py "os").
  destruct (OS.from_dict _) as [os|e]; [rewrite bind_ok|eauto].
  need_key m (py "software").
  destruct (iter _ ≫= mapM _) as [software|e]; [rewrite bind_ok|eauto].
  need_key m (py "vulnerabilities").
  exfalso. unfold declared_keys in Hk.
  repeat (apply elem_of_cons in Hk as [->|Hk]; [congruence|]).
  by apply elem_of_nil in Hk.
Qed.

Lemma first_missing_exists (keys : list pystr) (m : gmap pystr json) (k : pystr) :
  k ∈ keys → m !! k = None →
  ∃ k', first_missing keys m = Some k' ∧ m !! k' = None.
Proof.
  unfold first_missing. induction keys as [|k0 keys IH]; intros Hk Hm.
  - by apply elem_of_nil in Hk.
  - simpl. case_bool_decide as H0; [eauto|].
    apply elem_of_cons in Hk as [->|Hk]; [congruence|]. by apply IH.
Qed.

Lemma mapM_cons {A B} (f : A → result B) (x : A) (l : list A) :
  mapM f (x :: l) = y ← f x; k ← mapM f l; mret (y :: k).
Proof. reflexivity. Qed.

(** A list comprehension raises as soon as one of its elements does. *)
Lemma mapM_raises {A B} (f : A → result B) (before after : list A) (x : A) (e : exn) :
  f x = Raise e → ∃ e', mapM f (before ++ x :: after) = Raise e'.
Proof.
  intros Hx. induction before as [|y before [e' IH]]; simpl app; rewrite mapM_cons.
  - rewrite Hx. eauto.
  - destruct (f y); [rewrite bind_ok, IH|]; eauto.
Qed.

(** C6, as stated, fails: the error raised for a missing key is
    [KeyError(key)], the same for an [OS] mapping and a [Software] mapping
    that lack [name], so that no reading of the error tells the record type
    being built; and a [Device] mapping that lacks [vulnerabilities] and has
    a number under [os] raises [TypeError], not a missing-key error. *)
Lemma missing_key_error_omits_record_type :
  OS.from_dict (JObj os_without_name) = Raise (KeyError (py "name")) ∧
  Software.from_dict (JObj software_without_name) = Raise (KeyError (py "name")) ∧
  Device.from_dict (JObj device_with_numeric_os) = Raise TypeError ∧
  ¬ (∃ identify : exn → record_type * pystr,
       ∀ t m k, k ∈ declared_keys t → m !! k = None →
                ∃ e, raises t (JObj m) e ∧ identify e = (t, k)).
Proof.
  assert (H1 : OS.from_dict (JObj os_without_name) = Raise (KeyError (py "name")))
    by (vm_compute; reflexivity).
  assert (H2 : Software.from_dict (JObj software_without_name)
               = Raise (KeyError (py "name"))) by (vm_compute; reflexivity).
  split; [exact H1|]. split; [exact H2|].
  split; [vm_compute; reflexivity|].
  intros [identify H].
  destruct (H TOS os_without_name (py "name")) as (e1 & R1 & I1);
    [apply list_elem_of_here | vm_compute; reflexivity |].
  destruct (H TSoftware software_without_name (py "name")) as (e2 & R2 & I2);
    [apply list_elem_of_here | vm_compute; reflexivity |].
  simpl in R1, R2. rewrite H1 in R1. rewrite H2 in R2.
  injection R1 as <-. injection R2 as <-. rewrite I1 in I2. discriminate.
Qed.

(** C6, amended: building a record from a mapping that lacks a declared key
    raises.  The mapping has a first missing key in declaration order; the
    error is the [KeyError] of that key for [OS], [Software] and
    [Vulnerability], and for [Device] when that key is one of those looked up
    before a nested record is built.  A list of device mappings that contains
    such a mapping makes [main] end on an uncaught exception with nothing
    printed and no file written. *)
Theorem from_dict_missing_key (t : record_type) (m : gmap pystr json) (k : pystr) :
  k ∈ declared_keys t → m !! k = None →
  (∃ e, raises t (JObj m) e) ∧
  (∃ k', first_missing (declared_keys t) m = Some k' ∧ m !! k' = None ∧
         (t ≠ TDevice ∨ k' ∈ device_own_keys → raises t (JObj m) (KeyError k'))) ∧
  (t = TDevice → ∀ before after,
     ∃ e, main (Ok (JArr (before ++ JObj m :: after))) = ([], Uncaught e)).
Proof.
  intros Hk Hm.
  destruct (first_missing_exists _ _ _ Hk Hm) as (k' & Hfirst & Hk').
  assert (Hfails : ∃ e, raises t (JObj m) e).
  { destruct t; simpl.
    - eexists. by apply OS_first_missing.
    - eexists. by apply Software_first_missing.
    - eexists. by apply Vulnerability_first_missing.
    - by apply (Device_missing_fails m k). }
  split; [exact Hfails|]. split.
  - exists k'. split; [exact Hfirst|]. split; [exact Hk'|].
    intros Hown. destruct t; simpl.
    + by apply OS_first_missing.
    + by apply Software_first_missing.
    + by apply Vulnerability_first_missing.
    + destruct Hown as [?|Hown]; [done|]. by apply Device_first_missing.
  - intros ->. intros before after. destruct Hfails as [e He]. simpl in He.
    destruct (mapM_raises Device.from_dict before after _ _ He) as [e' He'].
    exists e'. unfold main. simpl iter. rewrite bind_ok, He'. reflexivity.
Qed.

Lemma from_dict_missing_key_witness :
  Device.from_dict (JObj device_without_name) = Raise (KeyError (py "name")) ∧
  ∃ e, main (Ok (JArr ([] ++ JObj device_without_name :: []))) = ([], Uncaught e).
Proof.
  assert (Hk : py "name" ∈ declared_keys TDevice)
    by apply list_elem_of_here.
  assert (Hm : device_without_name !! py "name" = None)
    by (vm_compute; reflexivity).
  destruct (from_dict_missing_key TDevice device_without_name (py "name") Hk Hm)
    as (_ & (k' & Hfirst & _ & Hraise) & Hmain).
  split.
  - assert (k' = py "name") as ->       by (vm_compute in Hfirst; injection Hfirst as <-; reflexivity).
    apply Hraise. right. apply list_elem_of_here.
  - apply (Hmain eq_refl).
Defined.

(** ** [main] *)

(** C7: of the exceptions that opening and parsing the input can raise,
    [main] handles [FileNotFoundError] and [JSONDecodeError], each by one
    printed line and a return, and lets every other one through; an exception
    raised while the records are built leaves [main] uncaught.  No file is
    written on any of these paths. *)
Theorem main_error_policy (load : result json) :
  (load = Raise FileNotFoundError →
     main load = ([Print (py "Error: File 'response.json' not found.")], Returned)) ∧
  (load = Raise JSONDecodeError →
     main load =
       ([Print (py "Error: Invalid JSON format in 'response.json'.")], Returned)) ∧
  (∀ e, load = Raise e → e ≠ FileNotFoundError → e ≠ JSONDecodeError →
     main load = ([], Uncaught e)) ∧
  (∀ data e, load = Ok data →
     iter data ≫= mapM (M:=result) Device.from_dict = Raise e →
     main load = ([], Uncaught e)).
Proof.
  repeat split.
  - by intros ->.
  - by intros ->.
  - intros e -> ??. by destruct e.
  - intros data e -> H. unfold main. by rewrite H.
Qed.

Lemma main_error_policy_witness :
  main (Raise FileNotFoundError)
    = ([Print (py "Error: File 'response.json' not found.")], Returned) ∧
  main (Raise PermissionError) = ([], Uncaught PermissionError) ∧
  main (Ok (JArr [JObj device_without_name]))
    = ([], Uncaught (KeyError (py "name"))).
Proof.
  split; [|split].
  - destruct (main_error_policy (Raise FileNotFoundError)) as (H & _).
    apply H. reflexivity.
  - destruct (main_error_policy (Raise PermissionError)) as (_ & _ & H & _).
    apply H; [reflexivity|discriminate..].
  - destruct (main_error_policy (Ok (JArr [JObj device_without_name])))
      as (_ & _ & _ & H).
    apply (H (JArr [JObj device_without_name])); [reflexivity|].
    vm_compute. reflexivity.
Defined.

(** ** Worksheets as rows *)

Lemma foldl_ext_all {A B} (f g : A → B → A) (a : A) (l : list B) :
  (∀ a b, f a b = g a b) → foldl f a l = foldl g a l.
Proof.
  intros H. revert a. induction l as [|b l IH]; intros a; simpl; [done|].
  by rewrite H, IH.
Qed.

Lemma foldl_step {A B} (f : A → B → A) (a : A) (b : B) (l : list B) :
  foldl f a (b :: l) = foldl f (f a b) l.
Proof. reflexivity. Qed.

Lemma enumerate_cons {A} (x : A) (l : list A) (start : nat) :
  enumerate (x :: l) start = (start, x) :: enumerate l (S start).
Proof. reflexivity. Qed.

Lemma touch_lookup (row column : nat) (change : Cell.t → Cell.t)
    (ws : Worksheet.t) (r c : nat) :
  Worksheet.cells (Worksheet.touch row column change ws) !! (r, c) =
    if decide (r = row ∧ c = column)
    then Some (change (Worksheet.get ws row column))
    else Worksheet.cells ws !! (r, c).
Proof.
  unfold Worksheet.touch. simpl. case_decide as H.
  - destruct H as [-> ->]. apply lookup_insert_eq.
  - apply lookup_insert_ne. intros [= -> ->]. by apply H.
Qed.

Ltac not_both := intros [? ?]; first [congruence | done].

Lemma touch_get (row column : nat) (change : Cell.t → Cell.t)
    (ws : Worksheet.t) (c : nat) :
  Worksheet.get (Worksheet.touch row column change ws) row c =
    if decide (column = c)
    then change (Worksheet.get ws row c)
    else Worksheet.get ws row c.
Proof.
  unfold Worksheet.get at 1. rewrite touch_lookup.
  destruct (decide (column = c)) as [->|Hc].
  - by rewrite decide_True.
  - by rewrite decide_False by not_both.
Qed.

Lemma run_row_cons (row : nat) (op : nat * (Cell.t → Cell.t))
    (ops : list (nat * (Cell.t → Cell.t))) (ws : Worksheet.t) :
  run_row row (op :: ops) ws = run_row row ops (Worksheet.touch row op.1 op.2 ws).
Proof. reflexivity. Qed.

Lemma cell_after_cons (op : nat * (Cell.t → Cell.t))
    (ops : list (nat * (Cell.t → Cell.t))) (column : nat) (c : Cell.t) :
  cell_after (op :: ops) column c =
    cell_after ops column (if decide (op.1 = column) then op.2 c else c).
Proof. reflexivity. Qed.

Lemma cell_after_app (ops1 ops2 : list (nat * (Cell.t → Cell.t))) (column : nat)
    (c : Cell.t) :
  cell_after (ops1 ++ ops2) column c = cell_after ops2 column (cell_after ops1 column c).
Proof. unfold cell_after. apply foldl_app. Qed.

(** Changes to other columns leave a cell as it is. *)
Lemma cell_after_other (ops : list (nat * (Cell.t → Cell.t))) (column : nat) (c : Cell.t) :
  column ∉ ops.*1 → cell_after ops column c = c.
Proof.
  induction ops as [|[c' g] ops IH]; intros Hc; [done|].
  rewrite cell_after_cons. simpl. rewrite decide_False.
  - apply IH. intros ?. apply Hc. by right.
  - intros <-. apply Hc. by left.
Qed.

Lemma run_row_lookup (row : nat) (ops : list (nat * (Cell.t → Cell.t)))
    (ws : Worksheet.t) (r c : nat) :
  Worksheet.cells (run_row row ops ws) !! (r, c) =
    if decide (r = row ∧ c ∈ ops.*1)
    then Some (cell_after ops c (Worksheet.get ws row c))
    else Worksheet.cells ws !! (r, c).
Proof.
  revert ws. induction ops as [|[column change] ops IH]; intros ws.
  - simpl. case_decide as H; [|done]. destruct H as [_ H]. by apply elem_of_nil in H.
  - rewrite run_row_cons, cell_after_cons, IH, touch_get, touch_lookup.
    rewrite fmap_cons. cbn [fst snd].
    destruct (decide (r = row)) as [->|Hr].
    2: { rewrite (decide_False (P := r = row ∧ c ∈ ops.*1)) by not_both.
         rewrite (decide_False (P := r = row ∧ c = column)) by not_both.
         by rewrite (decide_False (P := r = row ∧ c ∈ column :: ops.*1))
           by not_both. }
    destruct (decide (c ∈ ops.*1)) as [Hc|Hc].
    + rewrite (decide_True (P := row = row ∧ c ∈ ops.*1)) by done.
      rewrite (decide_True (P := row = row ∧ c ∈ column :: ops.*1)); [done|].
      split; [done|by right].
    + rewrite (decide_False (P := row = row ∧ c ∈ ops.*1)) by not_both.
      destruct (decide (column = c)) as [->|Hcol].
      * rewrite (decide_True (P := row = row ∧ c = c)) by done.
        rewrite (decide_True (P := row = row ∧ c ∈ c :: ops.*1));
          [|split; [done|by left]].
        by rewrite cell_after_other.
      * rewrite (decide_False (P := row = row ∧ c = column)) by not_both.
        rewrite (decide_False (P := row = row ∧ c ∈ column :: ops.*1)); [done|].
        intros [_ [->|?]%elem_of_cons]; done.
Qed.

Lemma run_row_merged (row : nat) (ops : list (nat * (Cell.t → Cell.t))) (ws : Worksheet.t) :
  Worksheet.merged_cells (run_row row ops ws) = Worksheet.merged_cells ws.
Proof. revert ws. induction ops as [|op ops IH]; intros ws; [done|]. simpl. by rewrite IH. Qed.

Lemma run_row_column_dimensions (row : nat) (ops : list (nat * (Cell.t → Cell.t)))
    (ws : Worksheet.t) :
  Worksheet.column_dimensions (run_row row ops ws) = Worksheet.column_dimensions ws.
Proof. revert ws. induction ops as [|op ops IH]; intros ws; [done|]. simpl. by rewrite IH. Qed.

Lemma run_row_row_dimensions (row : nat) (ops : list (nat * (Cell.t → Cell.t)))
    (ws : Worksheet.t) :
  Worksheet.row_dimensions (run_row row ops ws) = Worksheet.row_dimensions ws.
Proof. revert ws. induction ops as [|op ops IH]; intros ws; [done|]. simpl. by rewrite IH. Qed.

Lemma laid_out_get (ws : Worksheet.t) (rows : list (list Cell.t)) (row column : nat) :
  laid_out ws rows →
  Worksheet.get ws row column = default Cell.blank (lookup_rows rows row column).
Proof. intros H. unfold Worksheet.get. by rewrite H. Qed.

Lemma lookup_rows_beyond (rows : list (list Cell.t)) (row column : nat) :
  length rows < row → lookup_rows rows row column = None.
Proof.
  intros H. destruct row as [|r]; [done|]. destruct column as [|c]; [done|].
  simpl. rewrite lookup_ge_None_2; [done|lia].
Qed.

(** Writing every cell of the first free row appends a row. *)
Lemma run_row_laid_out (ws : Worksheet.t) (rows : list (list Cell.t))
    (width : nat) (ops : list (nat * (Cell.t → Cell.t))) :
  laid_out ws rows →
  (∀ c, c ∈ ops.*1 ↔ 1 ≤ c ≤ width) →
  laid_out (run_row (S (length rows)) ops ws) (rows ++ [build_row width ops]).
Proof.
  intros Hws Hops r c. rewrite run_row_lookup.
  case_decide as H.
  - destruct H as [-> Hc]. apply Hops in Hc.
    rewrite (laid_out_get ws rows) by done.
    rewrite lookup_rows_beyond by lia. simpl default.
    destruct c as [|c]; [lia|]. simpl.
    rewrite lookup_app_r by lia. rewrite Nat.sub_diag. simpl.
    unfold build_row. rewrite list_lookup_fmap, lookup_seq_lt by lia. done.
  - rewrite Hws. destruct r as [|r]; [done|]. destruct c as [|c]; [done|]. simpl.
    destruct (decide (r < length rows)) as [Hr|Hr].
    + by rewrite lookup_app_l.
    + rewrite (lookup_ge_None_2 rows) by lia. simpl.
      destruct (decide (r = length rows)) as [->|Hne].
      * rewrite lookup_app_r by lia. rewrite Nat.sub_diag. simpl.
        unfold build_row. rewrite list_lookup_fmap.
        rewrite lookup_ge_None_2; [done|]. rewrite length_seq.
        destruct (decide (width ≤ c)); [done|]. exfalso. apply H.
        split; [done|]. apply Hops. lia.
      * rewrite lookup_ge_None_2; [done|]. rewrite length_app. simpl. lia.
Qed.

(** *** The changes of one row *)

Lemma indexed_columns {A B} (F : nat * A → B) (l : list A) (start : nat) :
  ((λ p, (p.1, F p)) <$> enumerate l start).*1 = seq start (length l).
Proof.
  unfold enumerate. rewrite <- list_fmap_compose.
  change (fst ∘ (λ p : nat * A, (p.1, F p))) with (@fst nat A).
  apply fst_zip. by rewrite length_seq.
Qed.

Lemma cell_after_indexed {A} (F : nat * A → Cell.t → Cell.t) (l : list A)
    (start c : nat) (x : Cell.t) (a : A) :
  start ≤ c → l !! (c - start) = Some a →
  cell_after ((λ p, (p.1, F p)) <$> enumerate l start) c x = F (c, a) x.
Proof.
  revert start. induction l as [|a0 l IH]; intros start Hc Ha; [done|].
  rewrite enumerate_cons, fmap_cons, cell_after_cons. cbn [fst snd].
  destruct (decide (start = c)) as [->|Hne].
  - rewrite Nat.sub_diag in Ha. injection Ha as ->.
    apply cell_after_other. rewrite indexed_columns, elem_of_seq. lia.
  - apply IH; [lia|]. replace (c - start) with (S (c - S start)) in Ha by lia.
    exact Ha.
Qed.

Lemma border_ops_columns (width : nat) : (border_ops (S width)).*1 = seq 1 width.
Proof.
  unfold border_ops, range. rewrite <- list_fmap_compose.
  replace (S width - 1) with width by lia. apply list_fmap_id.
Qed.

Lemma cell_after_constant (g : Cell.t → Cell.t) (start n c : nat) (x : Cell.t) :
  start ≤ c < start + n →
  cell_after ((λ col, (col, g)) <$> seq start n) c x = g x.
Proof.
  revert start x. induction n as [|n IH]; intros start x Hc; [lia|].
  simpl seq. rewrite fmap_cons, cell_after_cons. cbn [fst snd].
  destruct (decide (start = c)) as [->|Hne].
  - apply cell_after_other. rewrite <- list_fmap_compose.
    change (fst ∘ (λ col : nat, (col, g))) with (@id nat).
    rewrite list_fmap_id, elem_of_seq. lia.
  - apply IH. lia.
Qed.

Lemma row_ops_columns (width : nat) (values : list cell_value) (c : nat) :
  length values ≤ width →
  c ∈ (row_ops width values).*1 ↔ 1 ≤ c ≤ width.
Proof.
  intros H. unfold row_ops, value_ops. rewrite fmap_app, elem_of_app.
  rewrite (indexed_columns (λ p c, Cell.set_alignment wrap_alignment
                                      (Worksheet.assign p.2 c))).
  rewrite border_ops_columns, !elem_of_seq. lia.
Qed.

Lemma data_cell_changes (v : cell_value) :
  Cell.set_border thin_border
    (Cell.set_alignment wrap_alignment (Worksheet.assign v Cell.blank))
  = data_cell v.
Proof. by destruct v. Qed.

(** The cells a row ends up with: its values, then bordered blanks. *)
Lemma build_row_data_row (width : nat) (values : list cell_value) :
  length values ≤ width →
  build_row width (row_ops width values) = data_row width values.
Proof.
  intros H. apply list_eq. intros i. unfold build_row, data_row, row_ops.
  rewrite list_lookup_fmap.
  destruct (decide (i < width)) as [Hi|Hi].
  - rewrite lookup_seq_lt by done. simpl. rewrite cell_after_app.
    unfold border_ops, range. replace (S width - 1) with width by lia.
    rewrite cell_after_constant by lia.
    destruct (decide (i < length values)) as [Hv|Hv].
    + destruct (lookup_lt_is_Some_2 values i Hv) as [v Ev].
      rewrite lookup_app_l by (by rewrite length_fmap).
      rewrite list_lookup_fmap, Ev. simpl. unfold value_ops.
      rewrite (cell_after_indexed
                 (λ p c, Cell.set_alignment wrap_alignment (Worksheet.assign p.2 c))
                 values 1 (S i) Cell.blank v); [|lia|].
      * cbn [snd]. by rewrite data_cell_changes.
      * by replace (S i - 1) with i by lia.
    + rewrite cell_after_other.
      * rewrite lookup_app_r by (rewrite length_fmap; lia).
        rewrite lookup_replicate_2 by (rewrite length_fmap; lia). done.
      * unfold value_ops.
        rewrite (indexed_columns (λ p c, Cell.set_alignment wrap_alignment
                                            (Worksheet.assign p.2 c))).
        rewrite elem_of_seq. lia.
  - rewrite (lookup_ge_None_2 (seq 1 width)) by (rewrite length_seq; lia).
    rewrite lookup_ge_None_2; [done|].
    rewrite length_app, length_fmap, length_replicate. lia.
Qed.

Lemma header_ops_columns (headers : list pystr) (c : nat) :
  c ∈ (header_ops headers).*1 ↔ 1 ≤ c ≤ length headers.
Proof.
  unfold header_ops.
  rewrite (indexed_columns
             (λ p c, Cell.set_border thin_border
                       (Cell.set_alignment center_alignment
                          (Cell.set_font header_font (Worksheet.assign (VStr p.2) c))))).
  rewrite elem_of_seq. lia.
Qed.

Lemma build_row_headers (headers : list pystr) :
  build_row (length headers) (header_ops headers) = header_cell <$> headers.
Proof.
  apply list_eq. intros i. unfold build_row. rewrite !list_lookup_fmap.
  destruct (decide (i < length headers)) as [Hi|Hi].
  - rewrite lookup_seq_lt by done.
    destruct (lookup_lt_is_Some_2 headers i Hi) as [h Eh]. rewrite Eh. simpl.
    unfold header_ops.
    rewrite (cell_after_indexed
               (λ p c, Cell.set_border thin_border
                         (Cell.set_alignment center_alignment
                            (Cell.set_font header_font
                               (Worksheet.assign (VStr p.2) c))))
               headers 1 (S i) Cell.blank h); [done|lia|].
    by replace (S i - 1) with i by lia.
  - rewrite (lookup_ge_None_2 (seq 1 _)) by (rewrite length_seq; lia).
    by rewrite (lookup_ge_None_2 headers) by lia.
Qed.

Lemma write_headers_run_row (headers : list pystr) (ws : Worksheet.t) :
  write_headers headers ws = run_row 1 (header_ops headers) ws.
Proof.
  unfold write_headers, run_row, header_ops. rewrite foldl_fmap.
  apply foldl_ext_all. by intros ws' [c h].
Qed.

Lemma laid_out_empty : laid_out Worksheet.empty [].
Proof. intros [|r] [|c]; simpl; by rewrite ?lookup_empty. Qed.

(** The header loop fills row 1 of an empty sheet. *)
Lemma write_headers_laid_out (headers : list pystr) :
  laid_out (write_headers headers Worksheet.empty) [header_cell <$> headers].
Proof.
  rewrite write_headers_run_row, <- build_row_headers.
  apply (run_row_laid_out Worksheet.empty [] (length headers)).
  - apply laid_out_empty.
  - apply header_ops_columns.
Qed.

(** *** Extent of a sheet *)

Lemma max_list_bounds (l : list nat) (n : nat) :
  (∀ x, x ∈ l → x ≤ n) → n = 0 ∨ n ∈ l → max_list l = n.
Proof.
  intros Hle Hn.
  assert (max_list l ≤ n).
  { clear Hn. induction l as [|x l IH]; simpl; [lia|].
    assert (x ≤ n) by (apply Hle; by left).
    assert (max_list l ≤ n) by (apply IH; intros; apply Hle; by right).
    by apply Nat.max_lub. }
  destruct Hn as [->|Hn]; [lia|]. apply max_list_elem_of_le in Hn. lia.
Qed.

Lemma elem_of_key_rows (m : gmap (nat * nat) Cell.t) (row : nat) :
  row ∈ (map_to_list m).*1.*1 ↔ ∃ column c, m !! (row, column) = Some c.
Proof.
  rewrite list_elem_of_fmap. split.
  - intros ([r column] & -> & H). apply list_elem_of_fmap in H as ([k c] & E & H).
    simpl in E. subst k. apply elem_of_map_to_list in H. eauto.
  - intros (column & c & H). exists (row, column). split; [done|].
    apply list_elem_of_fmap. exists ((row, column), c). split; [done|].
    by apply elem_of_map_to_list.
Qed.

Lemma elem_of_key_columns (m : gmap (nat * nat) Cell.t) (column : nat) :
  column ∈ (map_to_list m).*1.*2 ↔ ∃ row c, m !! (row, column) = Some c.
Proof.
  rewrite list_elem_of_fmap. split.
  - intros ([row col] & -> & H). apply list_elem_of_fmap in H as ([k c] & E & H).
    simpl in E. subst k. apply elem_of_map_to_list in H. eauto.
  - intros (row & c & H). exists (row, column). split; [done|].
    apply list_elem_of_fmap. exists ((row, column), c). split; [done|].
    by apply elem_of_map_to_list.
Qed.

Lemma lookup_rows_Some (rows : list (list Cell.t)) (width row column : nat) (c : Cell.t) :
  Forall (λ cells, length cells = width) rows →
  lookup_rows rows row column = Some c →
  1 ≤ row ≤ length rows ∧ 1 ≤ column ≤ width.
Proof.
  intros Hw H. destruct row as [|r]; [done|]. destruct column as [|col]; [done|].
  simpl in H. destruct (rows !! r) as [cells|] eqn:E; [|done]. simpl in H.
  assert (length cells = width) as <-.
  { eapply (proj1 (Forall_forall _ _) Hw), list_elem_of_lookup_2, E. }
  apply lookup_lt_Some in E, H. lia.
Qed.

Lemma lookup_rows_inside (rows : list (list Cell.t)) (width row column : nat) :
  Forall (λ cells, length cells = width) rows →
  1 ≤ row ≤ length rows → 1 ≤ column ≤ width →
  is_Some (lookup_rows rows row column).
Proof.
  intros Hw Hr Hc. destruct row as [|r]; [lia|]. destruct column as [|col]; [lia|].
  simpl. destruct (lookup_lt_is_Some_2 rows r) as [cells E]; [lia|]. rewrite E. simpl.
  apply lookup_lt_is_Some_2.
  rewrite (proj1 (Forall_forall _ _) Hw cells); [lia|].
  eapply list_elem_of_lookup_2, E.
Qed.

Lemma laid_out_max_row (ws : Worksheet.t) (rows : list (list Cell.t)) (width : nat) :
  laid_out ws rows → Forall (λ cells, length cells = width) rows → 0 < width →
  Worksheet.max_row ws = length rows.
Proof.
  intros Hws Hw Hpos. unfold Worksheet.max_row. apply max_list_bounds.
  - intros r (column & c & H)%elem_of_key_rows. rewrite Hws in H.
    apply (lookup_rows_Some rows width) in H; [lia|done].
  - destruct rows as [|cells rows]; [by left|]. right.
    apply elem_of_key_rows.
    destruct (lookup_rows_inside (cells :: rows) width (length (cells :: rows)) 1)
      as [c Hc]; [done|simpl; lia|lia|].
    exists 1, c. by rewrite Hws.
Qed.

Lemma laid_out_max_column (ws : Worksheet.t) (rows : list (list Cell.t)) (width : nat) :
  laid_out ws rows → Forall (λ cells, length cells = width) rows → rows ≠ [] →
  Worksheet.max_column ws = width.
Proof.
  intros Hws Hw Hne. unfold Worksheet.max_column. apply max_list_bounds.
  - intros col (row & c & H)%elem_of_key_columns. rewrite Hws in H.
    apply (lookup_rows_Some rows width) in H; [lia|done].
  - destruct (decide (width = 0)) as [?|Hpos]; [by left|]. right.
    apply elem_of_key_columns.
    destruct rows as [|cells rows]; [done|].
    destruct (lookup_rows_inside (cells :: rows) width 1 width)
      as [c Hc]; [done|simpl; lia|lia|].
    exists 1, c. by rewrite Hws.
Qed.

(** The values of a row and of a column, read off the rows. *)
Lemma laid_out_get_inside (ws : Worksheet.t) (rows : list (list Cell.t))
    (r c : nat) (cells : list Cell.t) (x : Cell.t) :
  laid_out ws rows → rows !! r = Some cells → cells !! c = Some x →
  Worksheet.get ws (S r) (S c) = x.
Proof.
  intros Hws Hr Hc. rewrite (laid_out_get ws rows) by done. simpl.
  by rewrite Hr; simpl; rewrite Hc.
Qed.

Lemma laid_out_row_values (ws : Worksheet.t) (rows : list (list Cell.t))
    (width r : nat) (cells : list Cell.t) :
  laid_out ws rows → Forall (λ cells, length cells = width) rows →
  rows !! r = Some cells →
  row_values ws (S r) = Cell.value <$> cells.
Proof.
  intros Hws Hw Hr. unfold row_values.
  rewrite (laid_out_max_column ws rows width); [|done|done|by intros ->].
  assert (length cells = width) as <-.
  { eapply (proj1 (Forall_forall _ _) Hw), list_elem_of_lookup_2, Hr. }
  apply list_eq. intros i. rewrite !list_lookup_fmap.
  destruct (cells !! i) as [x|] eqn:E.
  - rewrite lookup_seq_lt by (by apply lookup_lt_Some in E). simpl.
    by rewrite (laid_out_get_inside ws rows r i cells x).
  - rewrite lookup_ge_None_2; [done|]. rewrite length_seq.
    by apply lookup_ge_None.
Qed.

Lemma data_row_length (width : nat) (values : list cell_value) :
  length values ≤ width → length (data_row width values) = width.
Proof.
  intros H. unfold data_row. rewrite length_app, length_fmap, length_replicate. lia.
Qed.


(** ** The Device sheet *)

Lemma devices_row_run_row (ws : Worksheet.t) (row_num : nat) (device : Device.t) :
  devices_row ws (row_num, device) = run_row row_num (row_ops 7 (device_fields device)) ws.
Proof. reflexivity. Qed.

Lemma devices_rows_laid_out (devices : list Device.t) (ws : Worksheet.t)
    (rows : list (list Cell.t)) :
  laid_out ws rows →
  laid_out (foldl devices_row ws (enumerate devices (S (length rows))))
           (rows ++ ((λ device, data_row 7 (device_fields device)) <$> devices)).
Proof.
  revert ws rows. induction devices as [|device devices IH]; intros ws rows Hws.
  - simpl. by rewrite app_nil_r.
  - rewrite enumerate_cons, fmap_cons, foldl_step, devices_row_run_row.
    rewrite cons_middle, app_assoc.
    replace (S (S (length rows)))
      with (S (length (rows ++ [data_row 7 (device_fields device)])))
      by (rewrite length_app; simpl; lia).
    apply IH. rewrite <- build_row_data_row by (simpl; lia).
    apply run_row_laid_out; [done|]. intros c. apply row_ops_columns. simpl. lia.
Qed.

Lemma write_devices_laid_out (devices : list Device.t) :
  laid_out (write_devices devices Worksheet.empty)
           ((header_cell <$> devices_headers)
              :: ((λ device, data_row 7 (device_fields device)) <$> devices)).
Proof.
  apply (devices_rows_laid_out devices _ [header_cell <$> devices_headers]).
  apply write_headers_laid_out.
Qed.

Lemma devices_rows_row_dimensions (devices : list (nat * Device.t)) (ws : Worksheet.t) :
  Worksheet.row_dimensions (foldl devices_row ws devices) = Worksheet.row_dimensions ws.
Proof.
  revert ws. induction devices as [|[n d] devices IH]; intros ws; [done|].
  by rewrite foldl_step, IH, devices_row_run_row, run_row_row_dimensions.
Qed.

Lemma write_devices_row_dimensions (devices : list Device.t) :
  Worksheet.row_dimensions (write_devices devices Worksheet.empty) = ∅.
Proof.
  unfold write_devices.
  by rewrite devices_rows_row_dimensions, write_headers_run_row, run_row_row_dimensions.
Qed.

(** ** The grouping loop *)

Section grouped_facts.
Context {Item : Type}.
Variable items : Device.t → list Item.
Variable fields : Item → list cell_value.
Variable width : nat.
Hypothesis fields_fit : ∀ item, S (length (fields item)) = width.

Lemma grouped_item_eq (device : Device.t) (start_row : nat) (ws : Worksheet.t)
    (row_num : nat) (item : Item) :
  grouped_item fields width device start_row (ws, row_num) item =
    (run_row row_num
       (row_ops width
          (VStr (if decide (row_num = start_row) then Device.name device else [])
             :: fields item)) ws,
     row_num + 1).
Proof. reflexivity. Qed.

Lemma grouped_items_row_num (device : Device.t) (start_row : nat)
    (its : list Item) (ws : Worksheet.t) (row_num : nat) :
  (foldl (grouped_item fields width device start_row) (ws, row_num) its).2
  = row_num + length its.
Proof.
  revert ws row_num. induction its as [|item its IH]; intros ws row_num.
  - simpl. lia.
  - rewrite foldl_step, grouped_item_eq, IH. simpl. lia.
Qed.

Lemma grouped_items_merged (device : Device.t) (start_row : nat)
    (its : list Item) (ws : Worksheet.t) (row_num : nat) :
  Worksheet.merged_cells
    (foldl (grouped_item fields width device start_row) (ws, row_num) its).1
  = Worksheet.merged_cells ws.
Proof.
  revert ws row_num. induction its as [|item its IH]; intros ws row_num; [done|].
  by rewrite foldl_step, grouped_item_eq, IH, run_row_merged.
Qed.

Lemma grouped_items_row_dimensions (device : Device.t) (start_row : nat)
    (its : list Item) (ws : Worksheet.t) (row_num : nat) :
  Worksheet.row_dimensions
    (foldl (grouped_item fields width device start_row) (ws, row_num) its).1
  = Worksheet.row_dimensions ws.
Proof.
  revert ws row_num. induction its as [|item its IH]; intros ws row_num; [done|].
  by rewrite foldl_step, grouped_item_eq, IH, run_row_row_dimensions.
Qed.

(** One item appends one row; the name goes with it in the first row of
    the block only. *)
Lemma grouped_item_laid_out (device : Device.t) (start_row : nat)
    (ws : Worksheet.t) (rows : list (list Cell.t)) (item : Item) :
  laid_out ws rows →
  laid_out
    (run_row (S (length rows))
       (row_ops width
          (VStr (if decide (S (length rows) = start_row)
                 then Device.name device else []) :: fields item)) ws)
    (rows ++ [data_row width
                (VStr (if decide (S (length rows) = start_row)
                       then Device.name device else []) :: fields item)]).
Proof.
  intros Hws. rewrite <- build_row_data_row by (simpl; by rewrite fields_fit).
  apply run_row_laid_out; [done|]. intros c. apply row_ops_columns.
  simpl. by rewrite fields_fit.
Qed.

Lemma grouped_rest_laid_out (device : Device.t) (start_row : nat)
    (its : list Item) (ws : Worksheet.t) (rows : list (list Cell.t)) :
  laid_out ws rows → start_row < S (length rows) →
  laid_out
    (foldl (grouped_item fields width device start_row) (ws, S (length rows)) its).1
    (rows ++ ((λ item, data_row width (VStr [] :: fields item)) <$> its)).
Proof.
  revert ws rows. induction its as [|item its IH]; intros ws rows Hws Hstart.
  - simpl. by rewrite app_nil_r.
  - rewrite foldl_step, grouped_item_eq, fmap_cons, cons_middle, app_assoc.
    replace (S (length rows) + 1)
      with (S (length (rows ++ [data_row width (VStr [] :: fields item)])))
      by (rewrite length_app; simpl; lia).
    apply IH; [|rewrite length_app; simpl; lia].
    pose proof (grouped_item_laid_out device start_row ws rows item Hws) as H.
    destruct (decide (S (length rows) = start_row)); [lia|exact H].
Qed.

Lemma grouped_device_empty (device : Device.t) (ws : Worksheet.t) (row_num : nat) :
  items device = [] →
  grouped_device items fields width (ws, row_num) device =
    (run_row row_num (row_ops width [VStr (Device.name device)]) ws, row_num + 1).
Proof. intros H. unfold grouped_device. by rewrite H. Qed.

Lemma grouped_device_items (device : Device.t) (ws : Worksheet.t) (row_num : nat)
    (item : Item) (rest : list Item) :
  items device = item :: rest →
  grouped_device items fields width (ws, row_num) device =
    let st := foldl (grouped_item fields width device row_num) (ws, row_num)
                    (item :: rest) in
    if decide (row_num + 1 < st.2)
    then (Worksheet.merge_cells row_num 1 (st.2 - 1) 1 st.1, st.2)
    else st.
Proof.
  intros H. unfold grouped_device. rewrite H.
  by destruct (foldl _ _ _) as [ws' row_num'].
Qed.

Lemma block_length (device : Device.t) :
  length (block items fields device) = length (items device) `max` 1.
Proof.
  unfold block. destruct (items device) as [|item rest]; [done|].
  simpl. rewrite length_fmap. lia.
Qed.

Lemma block_widths (device : Device.t) :
  0 < width →
  Forall (λ cells, length cells = width)
         (data_row width <$> block items fields device).
Proof.
  intros Hpos. apply Forall_fmap, Forall_forall. intros values Hv. simpl.
  apply data_row_length. unfold block in Hv.
  destruct (items device) as [|item rest].
  - apply list_elem_of_singleton in Hv as ->. simpl. lia.
  - apply elem_of_cons in Hv as [->|Hv]; [simpl; by rewrite fields_fit|].
    apply list_elem_of_fmap in Hv as (it & -> & _). simpl. by rewrite fields_fit.
Qed.

Lemma grouped_device_row_num (device : Device.t) (ws : Worksheet.t) (row_num : nat) :
  (grouped_device items fields width (ws, row_num) device).2
  = row_num + length (block items fields device).
Proof.
  rewrite block_length. destruct (items device) as [|item rest] eqn:E.
  - by rewrite grouped_device_empty.
  - rewrite (grouped_device_items device ws row_num item rest E). cbv zeta.
    case_decide; simpl; rewrite grouped_items_row_num; simpl; lia.
Qed.

Lemma grouped_device_merged (device : Device.t) (ws : Worksheet.t) (row_num : nat) :
  Worksheet.merged_cells (grouped_device items fields width (ws, row_num) device).1
  = Worksheet.merged_cells ws ++
    (if decide (1 < length (items device))
     then [name_cells row_num (row_num + length (items device) - 1)]
     else []).
Proof.
  destruct (items device) as [|item rest] eqn:E.
  - rewrite grouped_device_empty by done. cbn [fst].
    rewrite run_row_merged. rewrite decide_False by (simpl; lia).
    by rewrite app_nil_r.
  - rewrite (grouped_device_items device ws row_num item rest E). cbv zeta.
    rewrite grouped_items_row_num.
    destruct (decide (row_num + 1 < row_num + length (item :: rest))) as [H|H].
    + rewrite decide_True by lia. cbn [fst].
      unfold Worksheet.merge_cells. cbn [Worksheet.merged_cells].
      by rewrite grouped_items_merged.
    + rewrite decide_False by lia.
      by rewrite grouped_items_merged, app_nil_r.
Qed.

Lemma grouped_device_row_dimensions (device : Device.t) (ws : Worksheet.t)
    (row_num : nat) :
  Worksheet.row_dimensions (grouped_device items fields width (ws, row_num) device).1
  = Worksheet.row_dimensions ws.
Proof.
  destruct (items device) as [|item rest] eqn:E.
  - rewrite grouped_device_empty by done. cbn [fst]. apply run_row_row_dimensions.
  - rewrite (grouped_device_items device ws row_num item rest E). cbv zeta.
    case_decide; cbn [fst]; [|apply grouped_items_row_dimensions].
    unfold Worksheet.merge_cells. cbn [Worksheet.row_dimensions].
    apply grouped_items_row_dimensions.
Qed.

(** One device appends its block. *)
Lemma grouped_device_laid_out (device : Device.t) (ws : Worksheet.t)
    (rows : list (list Cell.t)) :
  0 < width → laid_out ws rows →
  laid_out (grouped_device items fields width (ws, S (length rows)) device).1
           (rows ++ (data_row width <$> block items fields device)).
Proof.
  intros Hpos Hws. unfold block. destruct (items device) as [|item rest] eqn:E.
  - rewrite grouped_device_empty by done. cbn [fst].
    change (data_row width <$> [[VStr (Device.name device)]])
      with [data_row width [VStr (Device.name device)]].
    rewrite <- build_row_data_row by (simpl; lia).
    apply run_row_laid_out; [done|]. intros c. apply row_ops_columns. simpl. lia.
  - rewrite (grouped_device_items device ws _ item rest E). cbv zeta.
    assert (laid_out
              (foldl (grouped_item fields width device (S (length rows)))
                     (ws, S (length rows)) (item :: rest)).1
              (rows ++ (data_row width <$>
                 (VStr (Device.name device) :: fields item)
                   :: ((λ item, VStr [] :: fields item) <$> rest)))) as H.
    { rewrite foldl_step, grouped_item_eq, fmap_cons, cons_middle, app_assoc.
      rewrite <- list_fmap_compose.
      replace (S (length rows) + 1)
        with (S (length (rows ++ [data_row width
                                    (VStr (Device.name device) :: fields item)])))
        by (rewrite length_app; simpl; lia).
      apply grouped_rest_laid_out; [|rewrite length_app; simpl; lia].
      pose proof (grouped_item_laid_out device (S (length rows)) ws rows item Hws)
        as H.
      destruct (decide (S (length rows) = S (length rows))); [exact H|done]. }
    by case_decide.
Qed.

Lemma grouped_loop_step (device : Device.t) (devices : list Device.t)
    (st : Worksheet.t * nat) :
  grouped_loop items fields width (device :: devices) st =
    grouped_loop items fields width devices
      (grouped_device items fields width st device).
Proof. reflexivity. Qed.

Lemma grouped_loop_row_num (devices : list Device.t) (ws : Worksheet.t) (row_num : nat) :
  (grouped_loop items fields width devices (ws, row_num)).2
  = row_num + length (devices ≫= block items fields).
Proof.
  revert ws row_num. induction devices as [|d devices IH]; intros ws row_num.
  - simpl. lia.
  - rewrite grouped_loop_step.
    destruct (grouped_device items fields width (ws, row_num) d) as [ws' n'] eqn:E.
    rewrite IH. pose proof (grouped_device_row_num d ws row_num) as H.
    rewrite E in H. simpl in H. rewrite H, bind_cons, length_app. lia.
Qed.

Lemma grouped_loop_merged (devices : list Device.t) (ws : Worksheet.t) (row_num : nat) :
  Worksheet.merged_cells (grouped_loop items fields width devices (ws, row_num)).1
  = Worksheet.merged_cells ws ++ merges items fields row_num devices.
Proof.
  revert ws row_num. induction devices as [|d devices IH]; intros ws row_num.
  - simpl. by rewrite app_nil_r.
  - rewrite grouped_loop_step.
    destruct (grouped_device items fields width (ws, row_num) d) as [ws' n'] eqn:E.
    rewrite IH. pose proof (grouped_device_row_num d ws row_num) as Hn.
    pose proof (grouped_device_merged d ws row_num) as Hm.
    rewrite E in Hn, Hm. simpl in Hn, Hm. rewrite Hn, Hm. simpl merges.
    by rewrite app_assoc.
Qed.

Lemma grouped_loop_row_dimensions (devices : list Device.t) (ws : Worksheet.t)
    (row_num : nat) :
  Worksheet.row_dimensions (grouped_loop items fields width devices (ws, row_num)).1
  = Worksheet.row_dimensions ws.
Proof.
  revert ws row_num. induction devices as [|d devices IH]; intros ws row_num; [done|].
  rewrite grouped_loop_step.
  destruct (grouped_device items fields width (ws, row_num) d) as [ws' n'] eqn:E.
  rewrite IH. pose proof (grouped_device_row_dimensions d ws row_num) as H.
  by rewrite E in H.
Qed.

(** The loop appends the blocks of the devices, in order. *)
Lemma grouped_loop_laid_out (devices : list Device.t) (ws : Worksheet.t)
    (rows : list (list Cell.t)) :
  0 < width → laid_out ws rows →
  laid_out (grouped_loop items fields width devices (ws, S (length rows))).1
           (rows ++ (data_row width <$> (devices ≫= block items fields))).
Proof.
  intros Hpos. revert ws rows. induction devices as [|d devices IH]; intros ws rows Hws.
  - simpl. by rewrite app_nil_r.
  - rewrite grouped_loop_step, bind_cons, fmap_app, app_assoc.
    destruct (grouped_device items fields width (ws, S (length rows)) d)
      as [ws' n'] eqn:E.
    pose proof (grouped_device_row_num d ws (S (length rows))) as Hn.
    pose proof (grouped_device_laid_out d ws rows Hpos Hws) as Hl.
    rewrite E in Hn, Hl. cbn [fst snd] in Hn, Hl. subst n'.
    replace (S (length rows) + length (block items fields d))
      with (S (length (rows ++ (data_row width <$> block items fields d))))
      by (rewrite length_app, length_fmap; lia).
    by apply IH.
Qed.
End grouped_facts.

(** *** Ranges merged by the loop *)

Section merges_facts.
Context {Item : Type}.
Variable items : Device.t → list Item.
Variable fields : Item → list cell_value.

Lemma merges_cons (row_num : nat) (d : Device.t) (devices : list Device.t) :
  merges items fields row_num (d :: devices) =
    (if decide (1 < length (items d))
     then [name_cells row_num (row_num + length (items d) - 1)]
     else [])
    ++ merges items fields (row_num + length (block items fields d)) devices.
Proof. reflexivity. Qed.


(** A merged range lies in column 1, spans at least two rows, and stays
    within the rows the devices take. *)
Lemma merges_bounds (row_num : nat) (devices : list Device.t) (rg : CellRange.t) :
  rg ∈ merges items fields row_num devices →
  ∃ first last, rg = name_cells first last ∧ row_num ≤ first ∧ first < last ∧
                last < row_num + length (devices ≫= block items fields).
Proof.
  revert row_num. induction devices as [|d devices IH]; intros row_num H.
  - by apply elem_of_nil in H.
  - rewrite merges_cons in H. rewrite bind_cons, length_app.
    pose proof (block_length items fields d) as Hb.
    apply elem_of_app in H as [H|H].
    + case_decide as Hn; [|by apply elem_of_nil in H].
      apply list_elem_of_singleton in H as ->.
      eexists _, _. split; [done|]. lia.
    + apply IH in H as (first & last & -> & ? & ? & ?).
      exists first, last. split; [done|]. lia.
Qed.

(** The block of a device and the ranges merged only depend on the values
    of the items. *)
Lemma block_by_values (d : Device.t) :
  block items fields d = block (λ d, fields <$> items d) id d.
Proof.
  unfold block. destruct (items d) as [|item rest]; [done|].
  simpl. f_equal. by rewrite <- list_fmap_compose.
Qed.

Lemma blocks_by_values (devices : list Device.t) :
  devices ≫= block items fields = devices ≫= block (λ d, fields <$> items d) id.
Proof.
  induction devices as [|d devices IH]; [done|].
  by rewrite !bind_cons, IH, block_by_values.
Qed.

Lemma merges_by_values (row_num : nat) (devices : list Device.t) :
  merges items fields row_num devices
  = merges (λ d, fields <$> items d) id row_num devices.
Proof.
  revert row_num. induction devices as [|d devices IH]; intros row_num; [done|].
  rewrite merges_cons, IH, block_by_values. simpl. by rewrite length_fmap.
Qed.
End merges_facts.

(** *** The two instances *)

Lemma software_item_grouped (device : Device.t) (start_row : nat)
    (st : Worksheet.t * nat) (software : Software.t) :
  software_item device start_row st software
  = grouped_item software_fields 4 device start_row st software.
Proof. by destruct st. Qed.

Lemma software_device_grouped (st : Worksheet.t * nat) (device : Device.t) :
  software_device st device
  = grouped_device Device.software software_fields 4 st device.
Proof.
  destruct st as [ws n]. unfold software_device, grouped_device.
  destruct (Device.software device) as [|item rest]; [done|].
  by rewrite (foldl_ext_all _ _ _ _ (software_item_grouped device n)).
Qed.

Lemma software_loop_grouped (devices : list Device.t) (st : Worksheet.t * nat) :
  software_loop devices st = grouped_loop Device.software software_fields 4 devices st.
Proof. apply foldl_ext_all, software_device_grouped. Qed.

Lemma vuln_item_grouped (device : Device.t) (start_row : nat)
    (st : Worksheet.t * nat) (vuln : Vulnerability.t) :
  vuln_item device start_row st vuln
  = grouped_item vuln_fields 11 device start_row st vuln.
Proof. by destruct st. Qed.

Lemma vuln_device_grouped (st : Worksheet.t * nat) (device : Device.t) :
  vuln_device st device
  = grouped_device Device.vulnerabilities vuln_fields 11 st device.
Proof.
  destruct st as [ws n]. unfold vuln_device, grouped_device.
  destruct (Device.vulnerabilities device) as [|item rest]; [done|].
  by rewrite (foldl_ext_all _ _ _ _ (vuln_item_grouped device n)).
Qed.

Lemma vuln_loop_grouped (devices : list Device.t) (st : Worksheet.t * nat) :
  vuln_loop devices st = grouped_loop Device.vulnerabilities vuln_fields 11 devices st.
Proof. apply foldl_ext_all, vuln_device_grouped. Qed.

(** When the loops reach a device, they are in the state they would be in
    after running over the devices before it alone. *)
Lemma loops_reach (pre post : list Device.t) (d : Device.t) (st : Worksheet.t * nat) :
  software_loop (pre ++ d :: post) st
  = software_loop post (software_device (software_loop pre st) d) ∧
  vuln_loop (pre ++ d :: post) st
  = vuln_loop post (vuln_device (vuln_loop pre st) d).
Proof. unfold software_loop, vuln_loop. by rewrite !foldl_app. Qed.


Lemma headers_width (kind : grouped_sheet) :
  length (headers_of kind) = sheet_width kind.
Proof. by destruct kind. Qed.

(** What the loop of a grouped sheet leaves: the header row, then the blocks
    of the devices; the row counter; the merged ranges; no row height. *)
Lemma written_facts (kind : grouped_sheet) (devices : list Device.t) :
  laid_out (written kind devices)
    ((header_cell <$> headers_of kind)
       :: (data_row (sheet_width kind) <$> (devices ≫= block (item_fields kind) id))) ∧
  row_after kind devices = 2 + length (devices ≫= block (item_fields kind) id) ∧
  Worksheet.merged_cells (written kind devices) = merges (item_fields kind) id 2 devices ∧
  Worksheet.row_dimensions (written kind devices) = ∅.
Proof.
  destruct kind; unfold written, row_after, write_software, write_vulnerabilities,
    item_fields, headers_of, sheet_width.
  - rewrite software_loop_grouped.
    rewrite <- (blocks_by_values Device.software software_fields).
    rewrite <- (merges_by_values Device.software software_fields).
    split; [|split; [|split]].
    + apply (grouped_loop_laid_out Device.software software_fields 4 (λ _, eq_refl)
               devices _ [header_cell <$> software_headers]); [lia|].
      apply write_headers_laid_out.
    + apply grouped_loop_row_num.
    + rewrite grouped_loop_merged, write_headers_run_row, run_row_merged. done.
    + rewrite grouped_loop_row_dimensions, write_headers_run_row.
      by rewrite run_row_row_dimensions.
  - rewrite vuln_loop_grouped.
    rewrite <- (blocks_by_values Device.vulnerabilities vuln_fields).
    rewrite <- (merges_by_values Device.vulnerabilities vuln_fields).
    split; [|split; [|split]].
    + apply (grouped_loop_laid_out Device.vulnerabilities vuln_fields 11 (λ _, eq_refl)
               devices _ [header_cell <$> vuln_headers]); [lia|].
      apply write_headers_laid_out.
    + apply grouped_loop_row_num.
    + rewrite grouped_loop_merged, write_headers_run_row, run_row_merged. done.
    + rewrite grouped_loop_row_dimensions, write_headers_run_row.
      by rewrite run_row_row_dimensions.
Qed.

(** ** Column widths and row heights *)

Lemma widths_fold_keeps (l : list (nat * list Cell.t)) (ws0 : Worksheet.t) :
  let ws' := foldl (λ ws '(column, col),
                      Worksheet.set_width column
                        (adjusted_width (column_max_length col)) ws) ws0 l in
  Worksheet.cells ws' = Worksheet.cells ws0 ∧
  Worksheet.merged_cells ws' = Worksheet.merged_cells ws0 ∧
  Worksheet.row_dimensions ws' = Worksheet.row_dimensions ws0.
Proof.
  revert ws0. induction l as [|[column col] l IH]; intros ws0; [done|].
  rewrite foldl_step. cbv zeta in *. by destruct (IH (Worksheet.set_width column
    (adjusted_width (column_max_length col)) ws0)) as (-> & -> & ->).
Qed.

Lemma widths_fold_lookup (G : nat → list Cell.t) (ws0 : Worksheet.t) (start n c : nat) :
  start ≤ c < start + n →
  Worksheet.column_dimensions
    (foldl (λ ws '(column, col),
              Worksheet.set_width column (adjusted_width (column_max_length col)) ws)
           ws0 ((λ column, (column, G column)) <$> seq start n)) !! c
  = Some (adjusted_width (column_max_length (G c))).
Proof.
  induction n as [|n IH]; intros Hc; [lia|].
  rewrite seq_S, fmap_app, foldl_app, list_fmap_singleton.
  rewrite foldl_step. cbv beta iota. cbn [foldl].
  unfold Worksheet.set_width at 1. cbn [Worksheet.column_dimensions].
  destruct (decide (c = start + n)) as [->|Hne].
  - apply lookup_insert_eq.
  - rewrite lookup_insert_ne by done. apply IH. lia.
Qed.

Lemma heights_fold_keeps (l : list (nat * list Cell.t)) (ws0 : Worksheet.t) :
  let ws' := foldl (λ ws '(row_index, row),
                      let max_lines := row_max_lines row in
                      if decide (1 < max_lines)
                      then Worksheet.set_height row_index (15 * max_lines) ws
                      else ws) ws0 l in
  Worksheet.cells ws' = Worksheet.cells ws0 ∧
  Worksheet.merged_cells ws' = Worksheet.merged_cells ws0 ∧
  Worksheet.column_dimensions ws' = Worksheet.column_dimensions ws0.
Proof.
  revert ws0. induction l as [|[row_index row] l IH]; intros ws0; [done|].
  rewrite foldl_step. cbv zeta in *.
  case_decide; [|apply IH].
  by destruct (IH (Worksheet.set_height row_index (15 * row_max_lines row) ws0))
    as (-> & -> & ->).
Qed.

Lemma heights_fold_lookup (G : nat → list Cell.t) (ws0 : Worksheet.t) (start n r : nat) :
  Worksheet.row_dimensions
    (foldl (λ ws '(row_index, row),
              let max_lines := row_max_lines row in
              if decide (1 < max_lines)
              then Worksheet.set_height row_index (15 * max_lines) ws
              else ws)
           ws0 ((λ row, (row, G row)) <$> seq start n)) !! r
  = if decide (start ≤ r < start + n ∧ 1 < row_max_lines (G r))
    then Some (15 * row_max_lines (G r))
    else Worksheet.row_dimensions ws0 !! r.
Proof.
  cbv zeta. induction n as [|n IH].
  - simpl. rewrite decide_False; [done|lia].
  - rewrite seq_S, fmap_app, foldl_app, list_fmap_singleton.
    rewrite foldl_step. cbv beta iota. cbn [foldl].
    destruct (decide (1 < row_max_lines (G (start + n)))) as [Hl|Hl].
    + unfold Worksheet.set_height at 1. cbn [Worksheet.row_dimensions].
      destruct (decide (r = start + n)) as [->|Hne].
      * rewrite lookup_insert_eq. rewrite decide_True; [done|]. split; [lia|done].
      * rewrite lookup_insert_ne by done. rewrite IH.
        destruct (decide (1 < row_max_lines (G r))) as [Hr|Hr].
        -- destruct (decide (start ≤ r < start + n)).
           ++ rewrite !decide_True; [done|split; [lia|done]|done].
           ++ rewrite !decide_False; [done| |]; intros [? ?]; lia.
        -- rewrite !decide_False; [done| |]; intros [? ?]; lia.
    + rewrite IH.
      destruct (decide (r = start + n)) as [->|Hne].
      * rewrite !decide_False; [done| |]; intros [? ?]; lia.
      * destruct (decide (start ≤ r < start + n ∧ 1 < row_max_lines (G r)))
          as [[? ?]|Hn].
        -- rewrite decide_True; [done|]. split; [lia|done].
        -- rewrite decide_False; [done|]. intros [? ?]. apply Hn. split; [lia|done].
Qed.

(** The sizing passes leave cells and merged ranges alone, give every
    column its width and give a height to the rows with several lines. *)
Lemma sized_facts (ws : Worksheet.t) :
  let ws' := sized ws in
  Worksheet.cells ws' = Worksheet.cells ws ∧
  Worksheet.merged_cells ws' = Worksheet.merged_cells ws ∧
  (∀ c, 1 ≤ c ≤ Worksheet.max_column ws →
     Worksheet.column_dimensions ws' !! c =
       Some (adjusted_width
               (column_max_length
                  ((λ row, Worksheet.get ws row c) <$> seq 1 (Worksheet.max_row ws))))) ∧
  (∀ r, Worksheet.row_dimensions ws' !! r =
     if decide (1 ≤ r < 1 + Worksheet.max_row ws ∧
                1 < row_max_lines
                      ((λ column, Worksheet.get ws r column)
                         <$> seq 1 (Worksheet.max_column ws)))
     then Some (15 * row_max_lines
                        ((λ column, Worksheet.get ws r column)
                           <$> seq 1 (Worksheet.max_column ws)))
     else Worksheet.row_dimensions ws !! r).
Proof.
  cbv zeta. unfold sized.
  assert (Worksheet.cells (adjust_column_widths ws) = Worksheet.cells ws ∧
          Worksheet.merged_cells (adjust_column_widths ws) = Worksheet.merged_cells ws ∧
          Worksheet.row_dimensions (adjust_column_widths ws)
          = Worksheet.row_dimensions ws) as (Hc & Hm & Hr)
    by apply (widths_fold_keeps (Worksheet.columns ws) ws).
  assert (∀ ws1,
            Worksheet.cells (adjust_row_heights ws1) = Worksheet.cells ws1 ∧
            Worksheet.merged_cells (adjust_row_heights ws1) = Worksheet.merged_cells ws1 ∧
            Worksheet.column_dimensions (adjust_row_heights ws1)
            = Worksheet.column_dimensions ws1) as Hh
    by (intros ws1; apply (heights_fold_keeps (Worksheet.iter_rows ws1) ws1)).
  destruct (Hh (adjust_column_widths ws)) as (Hc' & Hm' & Hd').
  split; [by rewrite Hc'|]. split; [by rewrite Hm'|]. split.
  - intros c Hcol. rewrite Hd'. unfold adjust_column_widths, Worksheet.columns.
    apply (widths_fold_lookup
             (λ column, (λ row, Worksheet.get ws row column)
                           <$> seq 1 (Worksheet.max_row ws))). lia.
  - intros r. unfold adjust_row_heights at 1, Worksheet.iter_rows.
    unfold Worksheet.max_row, Worksheet.max_column, Worksheet.get. rewrite Hc.
    rewrite (heights_fold_lookup
               (λ row, (λ column, default Cell.blank (Worksheet.cells ws !! (row, column)))
                         <$> seq 1 (max_list ((map_to_list (Worksheet.cells ws)).*1.*2)))).
    by rewrite Hr.
Qed.

(** ** The workbook *)

(** The workbook saved: the three sheets, in this order, each written and
    then sized; the default sheet is gone. *)
Lemma workbook_sheets (devices : list Device.t) :
  workbook devices =
    [(py "Device", sized (write_devices devices Worksheet.empty));
     (py "Software", sized (written SoftwareSheet devices));
     (py "Vulnerability", sized (written VulnerabilitySheet devices))].
Proof. reflexivity. Qed.

Lemma workbook_grouped_sheet (kind : grouped_sheet) (devices : list Device.t) :
  Workbook.sheet (workbook devices) (title kind) = Some (sized (written kind devices)).
Proof. rewrite workbook_sheets. by destruct kind. Qed.

Lemma workbook_device_sheet (devices : list Device.t) :
  Workbook.sheet (workbook devices) (py "Device")
  = Some (sized (write_devices devices Worksheet.empty)).
Proof. by rewrite workbook_sheets. Qed.

(** ** The two inner loops of the sizing passes *)

Lemma column_max_length_from (m : nat) (col : list Cell.t) :
  foldl (λ max_length cell,
           if truthy (Cell.value cell)
              && bool_decide (max_length < length (str (Cell.value cell)))
           then length (str (Cell.value cell))
           else max_length) m col
  = m `max` max_list ((λ cell, length (str (Cell.value cell)))
                        <$> filter (λ cell, truthy (Cell.value cell) = true) col).
Proof.
  revert m. induction col as [|cell col IH]; intros m; [simpl; lia|].
  rewrite foldl_step, IH, filter_cons.
  destruct (truthy (Cell.value cell)) eqn:Ht; simpl andb.
  - rewrite decide_True by done. rewrite fmap_cons. simpl max_list_with.
    case_bool_decide; lia.
  - rewrite decide_False by done. done.
Qed.

Lemma column_max_length_filter (col : list Cell.t) :
  column_max_length col
  = max_list ((λ cell, length (str (Cell.value cell)))
                <$> filter (λ cell, truthy (Cell.value cell) = true) col).
Proof. unfold column_max_length. by rewrite column_max_length_from. Qed.

(** A cell whose value is falsy does not count. *)
Lemma column_max_length_skip (before after : list Cell.t) (cell : Cell.t) :
  truthy (Cell.value cell) = false →
  column_max_length (before ++ cell :: after) = column_max_length (before ++ after).
Proof.
  intros H. rewrite !column_max_length_filter, !filter_app, filter_cons.
  rewrite decide_False; [done|]. by rewrite H.
Qed.



Lemma split_nonempty (sep : N) (s : pystr) : 1 ≤ length (split sep s).
Proof.
  induction s as [|c s IH]; simpl; [lia|].
  destruct (N.eqb c sep); [simpl; lia|].
  destruct (split sep s); simpl in *; lia.
Qed.

(** Text that contains the separator splits into at least two parts. *)
Lemma split_contains (sep : N) (s : pystr) :
  contains sep s = true → 2 ≤ length (split sep s).
Proof.
  unfold contains. induction s as [|c s IH]; simpl; [done|].
  rewrite (N.eqb_sym sep c). destruct (N.eqb c sep); simpl.
  - intros _. pose proof (split_nonempty sep s). lia.
  - intros H. specialize (IH H). destruct (split sep s); simpl in *; lia.
Qed.

Lemma has_newline_truthy (v : cell_value) : has_newline v → truthy v = true.
Proof.
  unfold has_newline. destruct v as [|s|z|b]; simpl.
  - by vm_compute.
  - destruct s; [by vm_compute|done].
  - destruct (Z.eqb_spec z 0) as [->|]; [by vm_compute|done].
  - destruct b; [done|by vm_compute].
Qed.

Lemma has_newline_lines (v : cell_value) : has_newline v → 2 ≤ line_count v.
Proof. apply split_contains. Qed.

(** The row loop started at [m]: it ends on [m], or on the line count of a
    cell with a newline, and no such cell has more lines than it ends on. *)
Lemma row_max_lines_from (m : nat) (row : list Cell.t) :
  let r := foldl (λ max_lines cell,
                    if truthy (Cell.value cell)
                       && contains newline (str (Cell.value cell))
                    then
                      let lines := length (split newline (str (Cell.value cell))) in
                      if decide (max_lines < lines) then lines else max_lines
                    else max_lines) m row in
  m ≤ r ∧
  (r = m ∨ ∃ cell, cell ∈ row ∧ has_newline (Cell.value cell) ∧
                   r = line_count (Cell.value cell)) ∧
  (∀ cell, cell ∈ row → has_newline (Cell.value cell) →
           line_count (Cell.value cell) ≤ r).
Proof.
  cbv zeta. revert m. induction row as [|cell row IH]; intros m.
  - simpl. split; [done|]. split; [by left|]. by intros ? ?%elem_of_nil.
  - rewrite foldl_step.
    destruct (contains newline (str (Cell.value cell))) eqn:Hn.
    + rewrite (has_newline_truthy _ Hn). simpl andb. cbv iota.
      fold (line_count (Cell.value cell)).
      destruct (decide (m < line_count (Cell.value cell))) as [Hlt|Hge].
      * destruct (IH (line_count (Cell.value cell))) as (H1 & H2 & H3).
        split; [lia|]. split.
        -- right. destruct H2 as [->|(c & ? & ? & ?)].
           ++ exists cell. split; [by left|done].
           ++ exists c. split; [by right|done].
        -- intros c [->|Hc]%elem_of_cons Hc'; [done|by apply H3].
      * destruct (IH m) as (H1 & H2 & H3).
        split; [done|]. split.
        -- destruct H2 as [?|(c & ? & ? & ?)]; [by left|].
           right. exists c. split; [by right|done].
        -- intros c [->|Hc]%elem_of_cons Hc'; [lia|by apply H3].
    + rewrite andb_false_r. destruct (IH m) as (H1 & H2 & H3).
      split; [done|]. split.
      * destruct H2 as [?|(c & ? & ? & ?)]; [by left|].
        right. exists c. split; [by right|done].
      * intros c [->|Hc]%elem_of_cons Hc'; [|by apply H3].
        unfold has_newline in Hc'. congruence.
Qed.

Lemma row_max_lines_plain (row : list Cell.t) :
  (∀ cell, cell ∈ row → ¬ has_newline (Cell.value cell)) → row_max_lines row = 1.
Proof.
  intros H. pose proof (row_max_lines_from 1 row) as H'.
  change (foldl _ 1 row) with (row_max_lines row) in H'. cbv zeta in H'.
  destruct H' as (_ & [?|(c & Hc & Hn & _)] & _); [done|]. by destruct (H c Hc).
Qed.

Lemma row_max_lines_newline (row : list Cell.t) :
  (∃ cell, cell ∈ row ∧ has_newline (Cell.value cell)) →
  ∃ cell, cell ∈ row ∧ has_newline (Cell.value cell) ∧
          row_max_lines row = line_count (Cell.value cell) ∧
          1 < row_max_lines row ∧
          ∀ cell', cell' ∈ row → has_newline (Cell.value cell') →
                   line_count (Cell.value cell') ≤ line_count (Cell.value cell).
Proof.
  intros (c0 & Hc0 & Hn0).
  pose proof (row_max_lines_from 1 row) as H.
  change (foldl _ 1 row) with (row_max_lines row) in H. cbv zeta in H.
  destruct H as (_ & H2 & H3).
  pose proof (H3 c0 Hc0 Hn0) as Hle. pose proof (has_newline_lines _ Hn0) as H2l.
  destruct H2 as [?|(c & Hc & Hn & Hr)]; [lia|].
  exists c. split; [done|]. split; [done|]. split; [done|]. split; [lia|].
  intros c' Hc' Hn'. rewrite <- Hr. by apply H3.
Qed.

(** ** Reading the saved sheets *)

Lemma sized_cells (ws : Worksheet.t) : Worksheet.cells (sized ws) = Worksheet.cells ws.
Proof. apply sized_facts. Qed.

Lemma sized_merged (ws : Worksheet.t) :
  Worksheet.merged_cells (sized ws) = Worksheet.merged_cells ws.
Proof. apply sized_facts. Qed.

Lemma sized_get (ws : Worksheet.t) (row column : nat) :
  Worksheet.get (sized ws) row column = Worksheet.get ws row column.
Proof. unfold Worksheet.get. by rewrite sized_cells. Qed.

Lemma sized_max_row (ws : Worksheet.t) : Worksheet.max_row (sized ws) = Worksheet.max_row ws.
Proof. unfold Worksheet.max_row. by rewrite sized_cells. Qed.

Lemma sized_max_column (ws : Worksheet.t) :
  Worksheet.max_column (sized ws) = Worksheet.max_column ws.
Proof. unfold Worksheet.max_column. by rewrite sized_cells. Qed.

Lemma sized_row_values (ws : Worksheet.t) (row : nat) :
  row_values (sized ws) row = row_values ws row.
Proof.
  unfold row_values. rewrite sized_max_column. apply list_fmap_ext.
  intros ? column _. by rewrite sized_get.
Qed.


Lemma sized_laid_out (ws : Worksheet.t) (rows : list (list Cell.t)) :
  laid_out ws rows → laid_out (sized ws) rows.
Proof. intros H row column. by rewrite sized_cells. Qed.


Lemma data_row_no_bool (width : nat) (values : list cell_value) :
  Forall no_bool values →
  Forall (λ c, no_bool (Cell.value c)) (data_row width values).
Proof.
  intros H. unfold data_row. apply Forall_app. split.
  - by apply Forall_fmap.
  - by apply Forall_replicate.
Qed.

Section grouped_rows.
Context {Item : Type}.
Variable items : Device.t → list Item.
Variable fields : Item → list cell_value.
Variable width : nat.




Lemma blocks_widths (devices : list Device.t) :
  (∀ item, S (length (fields item)) = width) → 0 < width →
  Forall (λ cells, length cells = width)
         (data_row width <$> (devices ≫= block items fields)).
Proof.
  intros Hfit Hpos. induction devices as [|d devices IH]; [constructor|].
  rewrite bind_cons, fmap_app. apply Forall_app. split; [|done].
  by apply block_widths.
Qed.

Lemma blocks_no_bool (devices : list Device.t) :
  (∀ item, Forall no_bool (fields item)) →
  Forall (Forall (λ c, no_bool (Cell.value c)))
         (data_row width <$> (devices ≫= block items fields)).
Proof.
  intros Hnb. induction devices as [|d devices IH]; [constructor|].
  rewrite bind_cons, fmap_app. apply Forall_app. split; [|done].
  apply Forall_fmap, Forall_forall. intros values Hv. simpl.
  apply data_row_no_bool. unfold block in Hv.
  destruct (items d) as [|item rest].
  - apply list_elem_of_singleton in Hv as ->. by repeat constructor.
  - apply elem_of_cons in Hv as [->|Hv]; [by constructor|].
    apply list_elem_of_fmap in Hv as (it & -> & _). by constructor.
Qed.
End grouped_rows.

(** The rows of a grouped sheet. *)
Lemma written_rows_widths (kind : grouped_sheet) (devices : list Device.t) :
  Forall (λ cells, length cells = sheet_width kind)
    ((header_cell <$> headers_of kind)
       :: (data_row (sheet_width kind) <$> (devices ≫= block (item_fields kind) id))).
Proof.
  constructor; [by rewrite length_fmap, headers_width|].
  destruct kind; unfold item_fields, sheet_width.
  - rewrite <- (blocks_by_values Device.software software_fields).
    apply blocks_widths; [done|lia].
  - rewrite <- (blocks_by_values Device.vulnerabilities vuln_fields).
    apply blocks_widths; [done|lia].
Qed.

Lemma written_rows_no_bool (kind : grouped_sheet) (devices : list Device.t) :
  Forall (Forall (λ c, no_bool (Cell.value c)))
    (data_row (sheet_width kind) <$> (devices ≫= block (item_fields kind) id)).
Proof.
  destruct kind; unfold item_fields, sheet_width.
  - rewrite <- (blocks_by_values Device.software software_fields).
    apply blocks_no_bool. intros item. by repeat constructor.
  - rewrite <- (blocks_by_values Device.vulnerabilities vuln_fields).
    apply blocks_no_bool. intros item. by repeat constructor.
Qed.





Lemma written_max_column (kind : grouped_sheet) (devices : list Device.t) :
  Worksheet.max_column (sized (written kind devices)) = sheet_width kind.
Proof.
  destruct (written_facts kind devices) as (Hl & _). rewrite sized_max_column.
  by apply (laid_out_max_column _ _ _ Hl (written_rows_widths kind devices)).
Qed.

(** ** The grouped sheets: C1 and C2 *)





(** ** The Device sheet: C3 *)

Lemma devices_rows_widths (devices : list Device.t) :
  Forall (λ cells, length cells = 7)
    ((header_cell <$> devices_headers)
       :: ((λ device, data_row 7 (device_fields device)) <$> devices)).
Proof.
  constructor; [done|]. apply Forall_fmap, Forall_forall. intros d _.
  apply (data_row_length 7 (device_fields d)). simpl. lia.
Qed.




(** ** Cell values: C4 *)




(** ** The saved sheets in general *)


Lemma laid_out_get_outside (ws : Worksheet.t) (rows : list (list Cell.t)) (r c : nat) :
  laid_out ws rows → ¬ (1 ≤ r ≤ length rows) → Worksheet.get ws r c = Cell.blank.
Proof.
  intros H Hr. rewrite (laid_out_get ws rows) by done.
  destruct r as [|r]; [done|]. rewrite lookup_rows_beyond; [done|lia].
Qed.

Lemma headers_non_empty :
  Forall (λ h : pystr, h ≠ []) devices_headers ∧
  Forall (λ h : pystr, h ≠ []) software_headers ∧
  Forall (λ h : pystr, h ≠ []) vuln_headers.
Proof.
  repeat split; repeat constructor; intros E; vm_compute in E; discriminate E.
Qed.

(** Each sheet of the workbook is a sized sheet that holds a row of
    non-empty headers and rows of data as wide as the header row, no cell
    holds a boolean, and no row height was set before the sizing. *)
Lemma workbook_sheet_shape (devices : list Device.t) (sheet_title : pystr)
    (ws : Worksheet.t) :
  (sheet_title, ws) ∈ workbook devices →
  ∃ ws0 headers data,
    ws = sized ws0 ∧
    laid_out ws0 ((header_cell <$> headers) :: data) ∧
    Forall (λ cells, length cells = length headers) data ∧
    Forall (Forall (λ c, no_bool (Cell.value c))) data ∧
    Forall (λ h : pystr, h ≠ []) headers ∧
    Worksheet.row_dimensions ws0 = ∅.
Proof.
  rewrite workbook_sheets. intros H.
  destruct headers_non_empty as (Hd & Hs & Hv).
  assert ((sheet_title, ws)
            = (py "Device", sized (write_devices devices Worksheet.empty)) ∨
          ∃ kind, (sheet_title, ws) = (title kind, sized (written kind devices)))
    as [E|[kind E]].
  { apply elem_of_cons in H as [H|H]; [by left|]. right.
    apply elem_of_cons in H as [H|H]; [by exists SoftwareSheet|].
    apply list_elem_of_singleton in H. by exists VulnerabilitySheet. }
  - injection E as _ ->.
    exists (write_devices devices Worksheet.empty), devices_headers,
      ((λ device, data_row 7 (device_fields device)) <$> devices).
    split; [done|]. split; [apply write_devices_laid_out|].
    pose proof (devices_rows_widths devices) as Hw. apply Forall_cons in Hw as [_ Hw].
    split; [exact Hw|]. split; [|split; [exact Hd|apply write_devices_row_dimensions]].
    apply Forall_fmap, Forall_forall. intros d _. simpl.
    apply data_row_no_bool. by repeat constructor.
  - injection E as _ ->.
    destruct (written_facts kind devices) as (Hl & _ & _ & Hr).
    exists (written kind devices), (headers_of kind),
      (data_row (sheet_width kind) <$> (devices ≫= block (item_fields kind) id)).
    split; [done|]. split; [exact Hl|].
    pose proof (written_rows_widths kind devices) as Hw.
    apply Forall_cons in Hw as [_ Hw]. rewrite headers_width.
    split; [exact Hw|]. split; [apply written_rows_no_bool|].
    split; [by destruct kind|exact Hr].
Qed.

(** ** Column widths: C5 *)




(** ** Row heights: C9 *)

Lemma sized_row_height (ws0 : Worksheet.t) (rows : list (list Cell.t))
    (width r : nat) :
  laid_out ws0 rows →
  Forall (λ cells, length cells = width) rows → 0 < width →
  Worksheet.row_dimensions ws0 = ∅ →
  ((∃ v, v ∈ row_values (sized ws0) r ∧ has_newline v) →
   ∃ v, v ∈ row_values (sized ws0) r ∧ has_newline v ∧
        Worksheet.row_dimensions (sized ws0) !! r = Some (15 * line_count v) ∧
        ∀ v', v' ∈ row_values (sized ws0) r → has_newline v' →
              line_count v' ≤ line_count v) ∧
  ((∀ v, v ∈ row_values (sized ws0) r → ¬ has_newline v) →
   Worksheet.row_dimensions (sized ws0) !! r = None).
Proof.
  intros Hl Hw Hpos Hdim.
  destruct (sized_facts ws0) as (_ & _ & _ & Hheight). specialize (Hheight r).
  rewrite sized_row_values. unfold row_values.
  rewrite (list_fmap_compose (λ column, Worksheet.get ws0 r column) Cell.value).
  set (cells := (λ column, Worksheet.get ws0 r column)
                  <$> seq 1 (Worksheet.max_column ws0)) in *.
  split.
  - intros (v & Hv & Hn). apply list_elem_of_fmap in Hv as (c0 & -> & Hc0).
    destruct (row_max_lines_newline cells) as (c & Hc & Hcn & Hr & Hgt & Hmax);
      [by exists c0|].
    exists (Cell.value c). split; [apply list_elem_of_fmap; by exists c|].
    split; [done|]. split.
    + rewrite Hheight, decide_True; [by rewrite Hr|]. split; [|done].
      rewrite (laid_out_max_row _ _ _ Hl Hw Hpos).
      destruct (decide (1 ≤ r ≤ length rows)) as [?|Hout]; [lia|]. exfalso.
      apply list_elem_of_fmap in Hc0 as (column & -> & _).
      rewrite (laid_out_get_outside ws0 rows r column Hl Hout) in Hn.
      by vm_compute in Hn.
    + intros v' (c' & -> & Hc')%list_elem_of_fmap Hn'. by apply Hmax.
  - intros Hplain. rewrite Hheight, decide_False; [by rewrite Hdim|].
    intros [_ Hgt]. rewrite row_max_lines_plain in Hgt; [lia|].
    intros c Hc. apply Hplain, list_elem_of_fmap. by exists c.
Qed.

(** C9: in every sheet of the saved workbook, a row in which the text of
    some cell value contains a newline has the height 15 * n, n being the
    greatest number of newline-separated lines over those cells; a row without
    such a cell has no height set. *)
Theorem row_heights (devices : list Device.t) (sheet_title : pystr)
    (ws : Worksheet.t) (r : nat) :
  (sheet_title, ws) ∈ workbook devices →
  ((∃ v, v ∈ row_values ws r ∧ has_newline v) →
   ∃ v, v ∈ row_values ws r ∧ has_newline v ∧
        Worksheet.row_dimensions ws !! r = Some (15 * line_count v) ∧
        ∀ v', v' ∈ row_values ws r → has_newline v' →
              line_count v' ≤ line_count v) ∧
  ((∀ v, v ∈ row_values ws r → ¬ has_newline v) →
   Worksheet.row_dimensions ws !! r = None).
Proof.
  intros Hs.
  destruct (workbook_sheet_shape devices sheet_title ws Hs)
    as (ws0 & headers & data & -> & Hl & Hw & _ & Hne & Hdim).
  assert (Forall (λ cells, length cells = length headers)
            ((header_cell <$> headers) :: data)) as Hall
    by (constructor; [by rewrite length_fmap|done]).
  destruct (decide (0 < length headers)) as [Hpos|Hzero].
  - apply (sized_row_height ws0 _ (length headers) r Hl Hall Hpos Hdim).
  - destruct headers as [|h headers]; [|simpl in Hzero; lia].
    assert (row_values (sized ws0) r = []) as Hnil.
    { unfold row_values.
      rewrite sized_max_column, (laid_out_max_column _ _ _ Hl Hall); done. }
    rewrite Hnil. split.
    + intros (v & Hv & _). by apply elem_of_nil in Hv.
    + intros _. destruct (sized_facts ws0) as (_ & _ & _ & Hheight).
      rewrite Hheight, decide_False; [by rewrite Hdim|].
      intros [_ Hgt]. rewrite (laid_out_max_column _ _ _ Hl Hall) in Hgt by done.
      simpl in Hgt. unfold row_max_lines in Hgt. simpl in Hgt. lia.
Qed.

Lemma row_heights_witness :
  (py "Device", sized (write_devices [host1; host2] Worksheet.empty))
    ∈ workbook [host1; host2] ∧
  Worksheet.row_dimensions (sized (write_devices [host1; host2] Worksheet.empty)) !! 3
  = Some 30 ∧
  Worksheet.row_dimensions (sized (write_devices [host1; host2] Worksheet.empty)) !! 2
  = None.
Proof.
  assert (H : (py "Device", sized (write_devices [host1; host2] Worksheet.empty))
                ∈ workbook [host1; host2]).
  { vm_compute. left. }
  split; [exact H|]. split.
  - destruct (row_heights _ _ _ 3 H) as [Hn _].
    destruct Hn as (v & Hv & Hnl & Hh & _).
    + exists (VStr (Device.owner host2)). split; [|by vm_compute].
      vm_compute. repeat constructor.
    + rewrite Hh. f_equal. clear Hh. vm_compute in Hv.
      repeat (apply elem_of_cons in Hv as [->|Hv]).
      all: try (by apply elem_of_nil in Hv).
      all: vm_compute in Hnl; try discriminate Hnl.
      vm_compute. reflexivity.
  - destruct (row_heights _ _ _ 2 H) as [_ Hp]. apply Hp.
    intros v Hv Hnl. vm_compute in Hv.
    repeat (apply elem_of_cons in Hv as [->|Hv]).
    all: try (by apply elem_of_nil in Hv).
    all: vm_compute in Hnl; discriminate Hnl.
Defined.

(** ** Skipped cells: C10 *)

Lemma column_max_length_all_falsy (col : list Cell.t) :
  (∀ cell, cell ∈ col → truthy (Cell.value cell) = false) → column_max_length col = 0.
Proof.
  intros H. rewrite column_max_length_filter.
  replace (filter (λ cell, truthy (Cell.value cell) = true) col) with (@nil Cell.t);
    [done|].
  symmetry. induction col as [|cell col IH]; [done|].
  rewrite filter_cons, decide_False.
  - apply IH. intros c Hc. apply H. by right.
  - rewrite H; [done|by left].
Qed.

(** C10: the width loop counts a cell only when its value is truthy; the
    number 0, the empty string and False are not, so that such a cell changes
    nothing, and a column whose cells are all skipped has maxLength 0 and is
    given the width (0 + 2) * 1.2 = 2.4. *)
Theorem falsy_cells_skipped (ws : Worksheet.t) (c : nat)
    (before after : list Cell.t) (cell : Cell.t) :
  truthy (VInt 0) = false ∧ truthy (VStr []) = false ∧ truthy (VBool false) = false ∧
  (truthy (Cell.value cell) = false →
     column_max_length (before ++ cell :: after) = column_max_length (before ++ after)) ∧
  (1 ≤ c ≤ Worksheet.max_column ws →
   (∀ r, 1 ≤ r ≤ Worksheet.max_row ws →
         truthy (Cell.value (Worksheet.get ws r c)) = false) →
   column_max_length ((λ row, Worksheet.get ws row c) <$> seq 1 (Worksheet.max_row ws))
   = 0 ∧
   Worksheet.column_dimensions (sized ws) !! c = Some 2.4%Q).
Proof.
  split; [done|]. split; [done|]. split; [done|].
  split; [apply column_max_length_skip|].
  intros Hc Hfalsy.
  assert (column_max_length
            ((λ row, Worksheet.get ws row c) <$> seq 1 (Worksheet.max_row ws)) = 0)
    as H0.
  { apply column_max_length_all_falsy.
    intros x (r & -> & Hr)%list_elem_of_fmap. apply Hfalsy.
    apply elem_of_seq in Hr. lia. }
  split; [exact H0|].
  destruct (sized_facts ws) as (_ & _ & Hwidth & _).
  rewrite (Hwidth c Hc), H0. reflexivity.
Qed.

Lemma falsy_cells_skipped_witness :
  column_max_length [data_cell (VStr (py "ab")); data_cell (VInt 0)]
  = column_max_length [data_cell (VStr (py "ab"))] ∧
  Worksheet.column_dimensions
    (sized (put 1 1 (VInt 0) Worksheet.empty)) !! 1 = Some 2.4%Q.
Proof.
  destruct (falsy_cells_skipped (put 1 1 (VInt 0) Worksheet.empty) 1
              [data_cell (VStr (py "ab"))] [] (data_cell (VInt 0)))
    as (_ & _ & _ & Hskip & Hwidth).
  split.
  - apply Hskip. reflexivity.
  - apply Hwidth.
    + vm_compute. lia.
    + intros r Hr. vm_compute in Hr.
      assert (r = 1) as -> by lia. reflexivity.
Defined.

(** ** Header labels: C8 *)




(** * Further properties *)

(** ** Building records from well-formed mappings *)

Lemma subscript_union (m rest : gmap pystr json) (k : pystr) (v : json) :
  m !! k = Some v → subscript (JObj (m ∪ rest)) k = Ok v.
Proof. intros H. apply subscript_present. by apply lookup_union_Some_l. Qed.

Lemma as_strs_strings (l : list pystr) : as_strs (JArr (JStr <$> l)) = Some l.
Proof.
  unfold as_strs. induction l as [|s l IH]; [done|].
  rewrite fmap_cons. simpl. by rewrite IH.
Qed.

Lemma mapM_id_Some {A} (l : list A) : mapM id (Some <$> l) = Some l.
Proof. induction l as [|x l IH]; [done|]. rewrite fmap_cons. simpl. by rewrite IH. Qed.

Lemma mapM_round_trip {A} (f : json → result (option A)) (g : A → json) (l : list A) :
  (∀ x, f (g x) = Ok (Some x)) → mapM f (g <$> l) = Ok (Some <$> l).
Proof.
  intros H. induction l as [|x l IH]; [done|].
  rewrite !fmap_cons, mapM_cons, H, bind_ok, IH. reflexivity.
Qed.

(** Unknown keys are ignored, known ones are read under the names the
    source uses. *)
Lemma OS_round_trip (os : OS.t) (rest : gmap pystr json) :
  OS.from_dict (JObj (OS_to_dict os ∪ rest)) = Ok (Some os).
Proof.
  unfold OS.from_dict.
  rewrite (subscript_union _ rest (py "name") (JStr (OS.name os))), bind_ok
    by (by vm_compute).
  rewrite (subscript_union _ rest (py "version") (JStr (OS.version os))), bind_ok
    by (by vm_compute).
  by destruct os.
Qed.

Lemma Software_round_trip (software : Software.t) (rest : gmap pystr json) :
  Software.from_dict (JObj (Software_to_dict software ∪ rest)) = Ok (Some software).
Proof.
  unfold Software.from_dict.
  rewrite (subscript_union _ rest (py "name") (JStr (Software.name software))),
    bind_ok by (by vm_compute).
  rewrite (subscript_union _ rest (py "version") (JStr (Software.version software))),
    bind_ok by (by vm_compute).
  rewrite (subscript_union _ rest (py "vendor") (JStr (Software.vendor software))),
    bind_ok by (by vm_compute).
  by destruct software.
Qed.

Lemma Vulnerability_round_trip (vuln : Vulnerability.t) (rest : gmap pystr json) :
  Vulnerability.from_dict (JObj (Vulnerability_to_dict vuln ∪ rest)) = Ok (Some vuln).
Proof.
  unfold Vulnerability.from_dict.
  rewrite (subscript_union _ rest (py "kasperskyID")
             (JStr (Vulnerability.kaspersky_id vuln))), bind_ok by (by vm_compute).
  rewrite (subscript_union _ rest (py "productName")
             (JStr (Vulnerability.product_name vuln))), bind_ok by (by vm_compute).
  rewrite (subscript_union _ rest (py "descriptionURL")
             (JStr (Vulnerability.description_url vuln))), bind_ok by (by vm_compute).
  rewrite (subscript_union _ rest (py "recommendedMajorPatch")
             (JStr (Vulnerability.recommended_major_patch vuln))), bind_ok
    by (by vm_compute).
  rewrite (subscript_union _ rest (py "recommendedMinorPatch")
             (JStr (Vulnerability.recommended_minor_patch vuln))), bind_ok
    by (by vm_compute).
  rewrite (subscript_union _ rest (py "severityStr")
             (JStr (Vulnerability.severity_str vuln))), bind_ok by (by vm_compute).
  rewrite (subscript_union _ rest (py "severity")
             (JInt (Vulnerability.severity vuln))), bind_ok by (by vm_compute).
  rewrite (subscript_union _ rest (py "cve")
             (JArr (JStr <$> Vulnerability.cve vuln))), bind_ok by (by vm_compute).
  rewrite (subscript_union _ rest (py "exploitExists")
             (JBool (Vulnerability.exploit_exists vuln))), bind_ok by (by vm_compute).
  rewrite (subscript_union _ rest (py "malwareExists")
             (JBool (Vulnerability.malware_exists vuln))), bind_ok by (by vm_compute).
  unfold Vulnerability.init. simpl as_str. simpl as_int. simpl as_bool.
  rewrite as_strs_strings. by destruct vuln.
Qed.

Lemma Device_round_trip_rest (device : Device.t) (rest : gmap pystr json) :
  Device.from_dict (JObj (Device_to_dict device ∪ rest)) = Ok (Some device).
Proof.
  unfold Device.from_dict.
  rewrite (subscript_union _ rest (py "name") (JStr (Device.name device))), bind_ok
    by (by vm_compute).
  rewrite (subscript_union _ rest (py "fqdn") (JArr (JStr <$> Device.fqdn device))),
    bind_ok by (by vm_compute).
  rewrite (subscript_union _ rest (py "ipAddresses")
             (JArr (JStr <$> Device.ip_addresses device))), bind_ok by (by vm_compute).
  rewrite (subscript_union _ rest (py "macAddresses")
             (JArr (JStr <$> Device.mac_addresses device))), bind_ok by (by vm_compute).
  rewrite (subscript_union _ rest (py "owner") (JStr (Device.owner device))), bind_ok
    by (by vm_compute).
  rewrite (subscript_union _ rest (py "os") (JObj (OS_to_dict (Device.os device)))),
    bind_ok by (by vm_compute).
  rewrite <- (map_union_empty (OS_to_dict (Device.os device))), OS_round_trip, bind_ok.
  rewrite (subscript_union _ rest (py "software")
             (JArr ((λ software, JObj (Software_to_dict software))
                      <$> Device.software device))), bind_ok by (by vm_compute).
  simpl iter. rewrite bind_ok.
  rewrite (mapM_round_trip Software.from_dict
             (λ software, JObj (Software_to_dict software))), bind_ok.
  2: { intros x. rewrite <- (map_union_empty (Software_to_dict x)).
       apply Software_round_trip. }
  rewrite (subscript_union _ rest (py "vulnerabilities")
             (JArr ((λ vuln, JObj (Vulnerability_to_dict vuln))
                      <$> Device.vulnerabilities device))), bind_ok by (by vm_compute).
  simpl iter. rewrite bind_ok.
  rewrite (mapM_round_trip Vulnerability.from_dict
             (λ vuln, JObj (Vulnerability_to_dict vuln))), bind_ok.
  2: { intros x. rewrite <- (map_union_empty (Vulnerability_to_dict x)).
       apply Vulnerability_round_trip. }
  unfold Device.init. simpl as_str. rewrite !as_strs_strings, !mapM_id_Some.
  by destruct device.
Qed.

(** X1: [from_dict] reads back what the mapping describes: for each of the
    four record types, the mapping of a record, with any further keys beside
    it, gives that record; nested records and lists come back in order. *)
Theorem from_dict_round_trip (device : Device.t) (software : Software.t)
    (vuln : Vulnerability.t) (rest : gmap pystr json) :
  OS.from_dict (JObj (OS_to_dict (Device.os device) ∪ rest)) = Ok (Some (Device.os device)) ∧
  Software.from_dict (JObj (Software_to_dict software ∪ rest)) = Ok (Some software) ∧
  Vulnerability.from_dict (JObj (Vulnerability_to_dict vuln ∪ rest)) = Ok (Some vuln) ∧
  Device.from_dict (JObj (Device_to_dict device ∪ rest)) = Ok (Some device).
Proof.
  split; [apply OS_round_trip|]. split; [apply Software_round_trip|].
  split; [apply Vulnerability_round_trip|apply Device_round_trip_rest].
Qed.

(** ** Key presence is the only check *)

Ltac have_key H m k :=
  let v := fresh "v" in
  let E := fresh "E" in
  destruct (H k) as [v E];
  [ unfold declared_keys; rewrite !elem_of_cons; tauto
  | rewrite (subscript_present m k v E), ?bind_ok ].

Lemma flat_returns (t : record_type) (m : gmap pystr json) :
  t ≠ TDevice → (∀ k, k ∈ declared_keys t → is_Some (m !! k)) → returns t (JObj m).
Proof.
  intros Ht H. destruct t; [| | |done]; simpl.
  - unfold OS.from_dict.
    have_key H m (py "name"). have_key H m (py "version"). eauto.
  - unfold Software.from_dict.
    have_key H m (py "name"). have_key H m (py "version").
    have_key H m (py "vendor"). eauto.
  - unfold Vulnerability.from_dict.
    have_key H m (py "kasperskyID"). have_key H m (py "productName").
    have_key H m (py "descriptionURL"). have_key H m (py "recommendedMajorPatch").
    have_key H m (py "recommendedMinorPatch"). have_key H m (py "severityStr").
    have_key H m (py "severity"). have_key H m (py "cve").
    have_key H m (py "exploitExists"). have_key H m (py "malwareExists"). eauto.
Qed.

Lemma returns_keys (t : record_type) (m : gmap pystr json) (k : pystr) :
  returns t (JObj m) → k ∈ declared_keys t → is_Some (m !! k).
Proof.
  intros Hr Hk. destruct (m !! k) as [v|] eqn:E; [eauto|]. exfalso.
  destruct t; simpl in Hr; destruct Hr as [r Hr].
  - destruct (first_missing_exists _ _ _ Hk E) as (k' & Hf & _).
    rewrite (OS_first_missing m k' Hf) in Hr. discriminate.
  - destruct (first_missing_exists _ _ _ Hk E) as (k' & Hf & _).
    rewrite (Software_first_missing m k' Hf) in Hr. discriminate.
  - destruct (first_missing_exists _ _ _ Hk E) as (k' & Hf & _).
    rewrite (Vulnerability_first_missing m k' Hf) in Hr. discriminate.
  - destruct (Device_missing_fails m k Hk E) as [e He]. rewrite He in Hr. discriminate.
Qed.

(** X2: a [from_dict] that returns has found every declared key, and for
    [OS], [Software] and [Vulnerability] nothing else is asked: with every
    declared key present the call returns whatever the values are. *)
Theorem from_dict_checks_keys_only (t : record_type) (m : gmap pystr json) :
  (returns t (JObj m) → ∀ k, k ∈ declared_keys t → is_Some (m !! k)) ∧
  (t ≠ TDevice → (∀ k, k ∈ declared_keys t → is_Some (m !! k)) → returns t (JObj m)).
Proof.
  split.
  - intros Hr k Hk. by apply (returns_keys t m k).
  - apply flat_returns.
Qed.

Lemma from_dict_checks_keys_only_witness :
  returns TOS (JObj (<[py "name" := JInt 5]> {[py "version" := JNull]})).
Proof.
  apply (from_dict_checks_keys_only TOS); [discriminate|].
  intros k Hk. unfold declared_keys in Hk.
  repeat (apply elem_of_cons in Hk as [->|Hk]; [vm_compute; eauto|]).
  by apply elem_of_nil in Hk.
Defined.

(** ** Item lists that are not lists *)

Lemma from_dict_of_str (s : pystr) :
  Software.from_dict (JStr s) = Raise TypeError ∧
  Vulnerability.from_dict (JStr s) = Raise TypeError ∧
  Device.from_dict (JStr s) = Raise TypeError.
Proof. done. Qed.

(** A comprehension [[f(item) for item in v]] whose [f] raises [TypeError]
    on strings: over a value that is not a list it is empty for the empty
    string and the empty mapping, and raises otherwise. *)
Lemma comprehension_not_a_list {A} (f : json → result A) (v : json) :
  (∀ s, f (JStr s) = Raise TypeError) →
  (v = JStr [] ∨ v = JObj ∅ → iter v ≫= mapM f = Ok []) ∧
  ((∀ l, v ≠ JArr l) → v ≠ JStr [] → v ≠ JObj ∅ → iter v ≫= mapM f = Raise TypeError).
Proof.
  intros Hf. split.
  - intros [->| ->]; [done|]. simpl. by rewrite map_to_list_empty.
  - intros Hl Hs Ho. destruct v as [|b|z|q|s|l|m]; try done.
    + destruct s as [|c s]; [done|].
      change (iter (JStr (c :: s)))
        with (Ok (JStr [c] :: ((λ c, JStr [c]) <$> s))).
      by rewrite bind_ok, mapM_cons, Hf.
    + by destruct (Hl l).
    + simpl iter. rewrite bind_ok.
      destruct (map_to_list m) as [|[k x] kxs] eqn:E.
      * apply map_to_list_empty_iff in E. by subst m.
      * rewrite !fmap_cons, mapM_cons. cbn [fst]. by rewrite Hf.
Qed.

Lemma Device_with_software_value (d : Device.t) (v : json) :
  Device.from_dict (JObj (<[py "software" := v]> (Device_to_dict d))) =
    software ← iter v ≫= mapM (M:=result) Software.from_dict;
    mret (software ← mapM id software;
          Some {| Device.name := Device.name d; Device.fqdn := Device.fqdn d;
                  Device.ip_addresses := Device.ip_addresses d;
                  Device.mac_addresses := Device.mac_addresses d;
                  Device.owner := Device.owner d; Device.os := Device.os d;
                  Device.software := software;
                  Device.vulnerabilities := Device.vulnerabilities d |}).
Proof.
  unfold Device.from_dict.
  rewrite (subscript_present _ (py "name") (JStr (Device.name d))), bind_ok
    by (by vm_compute).
  rewrite (subscript_present _ (py "fqdn") (JArr (JStr <$> Device.fqdn d))), bind_ok
    by (by vm_compute).
  rewrite (subscript_present _ (py "ipAddresses")
             (JArr (JStr <$> Device.ip_addresses d))), bind_ok by (by vm_compute).
  rewrite (subscript_present _ (py "macAddresses")
             (JArr (JStr <$> Device.mac_addresses d))), bind_ok by (by vm_compute).
  rewrite (subscript_present _ (py "owner") (JStr (Device.owner d))), bind_ok
    by (by vm_compute).
  rewrite (subscript_present _ (py "os") (JObj (OS_to_dict (Device.os d)))), bind_ok
    by (by vm_compute).
  rewrite <- (map_union_empty (OS_to_dict (Device.os d))), OS_round_trip, bind_ok.
  rewrite (subscript_present _ (py "software") v), bind_ok by (by vm_compute).
  destruct (iter v ≫= mapM Software.from_dict) as [software|e]; [|done].
  rewrite !bind_ok.
  rewrite (subscript_present _ (py "vulnerabilities")
             (JArr ((λ vuln, JObj (Vulnerability_to_dict vuln))
                      <$> Device.vulnerabilities d))), bind_ok by (by vm_compute).
  simpl iter. rewrite bind_ok.
  rewrite (mapM_round_trip Vulnerability.from_dict
             (λ vuln, JObj (Vulnerability_to_dict vuln))), bind_ok.
  2: { intros x. rewrite <- (map_union_empty (Vulnerability_to_dict x)).
       apply Vulnerability_round_trip. }
  unfold Device.init. simpl as_str. rewrite !as_strs_strings, !mapM_id_Some.
  simpl. by destruct (mapM id software).
Qed.

(** X3: the value under [software] is iterated, not checked to be a list.
    An empty string or an empty mapping there gives a device without
    software; any other value that is not a list makes [Device.from_dict]
    raise [TypeError]. *)
Theorem software_not_a_list (d : Device.t) (v : json) :
  (v = JStr [] ∨ v = JObj ∅ →
   Device.from_dict (JObj (<[py "software" := v]> (Device_to_dict d)))
   = Ok (Some {| Device.name := Device.name d; Device.fqdn := Device.fqdn d;
                 Device.ip_addresses := Device.ip_addresses d;
                 Device.mac_addresses := Device.mac_addresses d;
                 Device.owner := Device.owner d; Device.os := Device.os d;
                 Device.software := [];
                 Device.vulnerabilities := Device.vulnerabilities d |})) ∧
  ((∀ l, v ≠ JArr l) → v ≠ JStr [] → v ≠ JObj ∅ →
   Device.from_dict (JObj (<[py "software" := v]> (Device_to_dict d)))
   = Raise TypeError).
Proof.
  rewrite Device_with_software_value.
  destruct (comprehension_not_a_list Software.from_dict v) as [Hempty Hraise];
    [intros s; apply from_dict_of_str|].
  split.
  - intros Hv. by rewrite (Hempty Hv).
  - intros Hl Hs Ho. by rewrite (Hraise Hl Hs Ho).
Qed.

Lemma software_not_a_list_witness :
  Device.from_dict (JObj (<[py "software" := JStr []]> (Device_to_dict host2)))
  = Ok (Some host2) ∧
  Device.from_dict (JObj (<[py "software" := JInt 3]> (Device_to_dict host1)))
  = Raise TypeError.
Proof.
  split.
  - destruct (software_not_a_list host2 (JStr [])) as [H _]. apply H. by left.
  - destruct (software_not_a_list host1 (JInt 3)) as [_ H]. by apply H.
Defined.

(** ** [main] on well-formed and on non-array input *)



(** X5: the parsed input is iterated, not checked to be an array.  A
    number, a boolean, [null], a non-empty string or a non-empty mapping at
    the top level ends [main] on an uncaught [TypeError] with nothing printed
    or written; an empty string or an empty mapping is taken as no devices. *)
Theorem main_non_array (data : json) :
  ((∀ l, data ≠ JArr l) → data ≠ JStr [] → data ≠ JObj ∅ →
   main (Ok data) = ([], Uncaught TypeError)) ∧
  (data = JStr [] ∨ data = JObj ∅ → main (Ok data) = main (Ok (JArr []))).
Proof.
  destruct (comprehension_not_a_list Device.from_dict data) as [Hempty Hraise];
    [intros s; apply from_dict_of_str|].
  split.
  - intros Hl Hs Ho. unfold main. by rewrite (Hraise Hl Hs Ho).
  - intros Hv. unfold main. by rewrite (Hempty Hv).
Qed.

Lemma main_non_array_witness :
  main (Ok (JInt 7)) = ([], Uncaught TypeError) ∧
  main (Ok (JObj ∅)) = main (Ok (JArr [])).
Proof.
  split.
  - by apply (main_non_array (JInt 7)).
  - apply (main_non_array (JObj ∅)). by right.
Defined.

(** ** Cells of the saved sheets *)

Section block_values.
Context {Item : Type}.
Variable items : Device.t → list Item.
Variable fields : Item → list cell_value.
Variable width : nat.


Lemma blocks_length (devices : list Device.t) :
  length (devices ≫= block items fields)
  = sum_list ((λ d, length (items d) `max` 1) <$> devices).
Proof.
  induction devices as [|d devices IH]; [done|].
  rewrite bind_cons, length_app, fmap_cons, IH, block_length. reflexivity.
Qed.

Lemma merges_length (row_num : nat) (devices : list Device.t) :
  length (merges items fields row_num devices)
  = length (filter (λ d, 1 < length (items d)) devices).
Proof.
  revert row_num. induction devices as [|d devices IH]; intros row_num; [done|].
  rewrite merges_cons, length_app, IH, filter_cons.
  by destruct (decide (1 < length (items d))).
Qed.

(** The ranges merged by the loop do not share a row. *)
Lemma merges_disjoint (row_num : nat) (devices : list Device.t)
    (rg1 rg2 : CellRange.t) (row : nat) :
  rg1 ∈ merges items fields row_num devices →
  rg2 ∈ merges items fields row_num devices →
  CellRange.min_row rg1 ≤ row ≤ CellRange.max_row rg1 →
  CellRange.min_row rg2 ≤ row ≤ CellRange.max_row rg2 →
  rg1 = rg2.
Proof.
  revert row_num. induction devices as [|d devices IH]; intros row_num H1 H2 Hr1 Hr2.
  - by apply elem_of_nil in H1.
  - rewrite merges_cons in H1, H2.
    pose proof (block_length items fields d) as Hb.
    apply elem_of_app in H1 as [H1|H1]; apply elem_of_app in H2 as [H2|H2].
    + case_decide; [|by apply elem_of_nil in H1].
      apply list_elem_of_singleton in H1, H2. congruence.
    + case_decide; [|by apply elem_of_nil in H1].
      apply list_elem_of_singleton in H1 as ->.
      apply merges_bounds in H2 as (first & last & -> & ? & ? & ?).
      simpl in Hr1, Hr2. lia.
    + case_decide; [|by apply elem_of_nil in H2].
      apply list_elem_of_singleton in H2 as ->.
      apply merges_bounds in H1 as (first & last & -> & ? & ? & ?).
      simpl in Hr1, Hr2. lia.
    + by apply (IH (row_num + length (block items fields d))).
Qed.
End block_values.








(** ** Extent and merged ranges of the grouped sheets *)

Lemma written_extent (kind : grouped_sheet) (devices : list Device.t) :
  Worksheet.max_row (sized (written kind devices))
  = 1 + sum_list ((λ d, length (item_fields kind d) `max` 1) <$> devices) ∧
  row_after kind devices
  = 2 + sum_list ((λ d, length (item_fields kind d) `max` 1) <$> devices).
Proof.
  destruct (written_facts kind devices) as (Hl & Hn & _).
  pose proof (written_rows_widths kind devices) as Hw.
  rewrite sized_max_row, (laid_out_max_row _ _ _ Hl Hw) by (destruct kind; simpl; lia).
  rewrite Hn. simpl length. by rewrite length_fmap, blocks_length.
Qed.

(** X8: the Software and the Vulnerability sheet have the header row and,
    for each device, as many rows as it has items, one row if it has none;
    they are 4 and 11 columns wide; the row counter ends one past the last
    row. *)
Theorem grouped_sheet_extent (kind : grouped_sheet) (devices : list Device.t) :
  ∃ ws, Workbook.sheet (workbook devices) (title kind) = Some ws ∧
    Worksheet.max_row ws
    = 1 + sum_list ((λ d, length (item_fields kind d) `max` 1) <$> devices) ∧
    Worksheet.max_column ws = sheet_width kind ∧
    row_after kind devices = Worksheet.max_row ws + 1.
Proof.
  exists (sized (written kind devices)).
  destruct (written_extent kind devices) as [Hrows Hafter].
  split; [apply workbook_grouped_sheet|]. split; [exact Hrows|].
  split; [apply written_max_column|]. rewrite Hrows, Hafter. lia.
Qed.

Lemma devices_rows_merged (devices : list (nat * Device.t)) (ws : Worksheet.t) :
  Worksheet.merged_cells (foldl devices_row ws devices) = Worksheet.merged_cells ws.
Proof.
  revert ws. induction devices as [|[n d] devices IH]; intros ws; [done|].
  by rewrite foldl_step, IH, devices_row_run_row, run_row_merged.
Qed.

(** X9: the Device sheet has no merged range.  On the Software and the
    Vulnerability sheet there is one merged range per device with more than
    one item; each lies in column 1, spans at least two rows below the header
    and within the sheet, and no row belongs to two of them. *)
Theorem merged_ranges (kind : grouped_sheet) (devices : list Device.t) :
  ∃ devices_ws ws,
    Workbook.sheet (workbook devices) (py "Device") = Some devices_ws ∧
    Workbook.sheet (workbook devices) (title kind) = Some ws ∧
    Worksheet.merged_cells devices_ws = [] ∧
    length (Worksheet.merged_cells ws)
    = length (filter (λ d, 1 < length (item_fields kind d)) devices) ∧
    (∀ rg, rg ∈ Worksheet.merged_cells ws →
       ∃ first last, rg = name_cells first last ∧
                     2 ≤ first ∧ first < last ∧ last ≤ Worksheet.max_row ws) ∧
    (∀ rg1 rg2 row c1 c2,
       rg1 ∈ Worksheet.merged_cells ws → rg2 ∈ Worksheet.merged_cells ws →
       covers rg1 row c1 → covers rg2 row c2 → rg1 = rg2).
Proof.
  exists (sized (write_devices devices Worksheet.empty)), (sized (written kind devices)).
  split; [apply workbook_device_sheet|]. split; [apply workbook_grouped_sheet|].
  split.
  { rewrite sized_merged. unfold write_devices.
    by rewrite devices_rows_merged, write_headers_run_row, run_row_merged. }
  destruct (written_facts kind devices) as (_ & _ & Hm & _).
  destruct (written_extent kind devices) as [Hrows _].
  rewrite sized_merged, Hm, Hrows. split; [apply merges_length|]. split.
  - intros rg Hrg. apply merges_bounds in Hrg as (first & last & -> & ? & ? & Hlast).
    rewrite blocks_length in Hlast. exists first, last. split; [done|]. lia.
  - intros rg1 rg2 row c1 c2 H1 H2 [Hr1 _] [Hr2 _].
    by apply (merges_disjoint (item_fields kind) id 2 devices rg1 rg2 row).
Qed.

Lemma merged_ranges_witness :
  ∃ ws, Workbook.sheet (workbook [host1; host2; host1]) (py "Software") = Some ws ∧
        length (Worksheet.merged_cells ws) = 2.
Proof.
  destruct (merged_ranges SoftwareSheet [host1; host2; host1])
    as (_ & ws & _ & Hs & _ & Hlen & _).
  exists ws. split; [exact Hs|]. rewrite Hlen. reflexivity.
Defined.

(** ** The width formula *)



(** ** Header rows *)

(** X11: the loops over the devices leave row 1 alone: whatever the
    devices, the Device sheet is headed Name, FQDN, IP Addresses, MAC
    Addresses, Owner, OS Name, OS Version, and columns 2 to 11 of the
    Vulnerability sheet are headed Kaspersky ID, Product Name, Severity,
    Severity Level, CVE IDs, Exploit Exists, Malware Exists, Recommended Major
    Patch, Recommended Minor Patch, Description URL. *)
Theorem header_rows_kept (devices : list Device.t) :
  ∃ devices_ws vulnerabilities_ws,
    Workbook.sheet (workbook devices) (py "Device") = Some devices_ws ∧
    Workbook.sheet (workbook devices) (py "Vulnerability") = Some vulnerabilities_ws ∧
    row_values devices_ws 1
    = [VStr (py "Name"); VStr (py "FQDN"); VStr (py "IP Addresses");
       VStr (py "MAC Addresses"); VStr (py "Owner"); VStr (py "OS Name");
       VStr (py "OS Version")] ∧
    drop 1 (row_values vulnerabilities_ws 1)
    = [VStr (py "Kaspersky ID"); VStr (py "Product Name"); VStr (py "Severity");
       VStr (py "Severity Level"); VStr (py "CVE IDs"); VStr (py "Exploit Exists");
       VStr (py "Malware Exists"); VStr (py "Recommended Major Patch");
       VStr (py "Recommended Minor Patch"); VStr (py "Description URL")].
Proof.
  exists (sized (write_devices devices Worksheet.empty)),
    (sized (written VulnerabilitySheet devices)).
  split; [apply workbook_device_sheet|].
  split; [apply (workbook_grouped_sheet VulnerabilitySheet)|].
  split.
  - pose proof (sized_laid_out _ _ (write_devices_laid_out devices)) as Hl.
    by rewrite (laid_out_row_values _ _ 7 0 _ Hl (devices_rows_widths devices) eq_refl).
  - destruct (written_facts VulnerabilitySheet devices) as (Hl & _).
    apply sized_laid_out in Hl.
    by rewrite (laid_out_row_values _ _ _ 0 _ Hl
                  (written_rows_widths VulnerabilitySheet devices) eq_refl).
Qed.

(** ** Scope of the sizing passes *)

Lemma widths_fold_outside (l : list (nat * list Cell.t)) (ws0 : Worksheet.t) (c : nat) :
  c ∉ l.*1 →
  Worksheet.column_dimensions
    (foldl (λ ws '(column, col),
              Worksheet.set_width column (adjusted_width (column_max_length col)) ws)
           ws0 l) !! c
  = Worksheet.column_dimensions ws0 !! c.
Proof.
  revert ws0. induction l as [|[column col] l IH]; intros ws0 Hc; [done|].
  rewrite foldl_step, IH by (intros ?; apply Hc; by right).
  unfold Worksheet.set_width. cbn [Worksheet.column_dimensions].
  apply lookup_insert_ne. intros ->. apply Hc. by left.
Qed.

(** X12: on any worksheet, the two sizing passes leave every cell as it
    reads, the extent of the sheet and the merged ranges as they are; they set
    the width of columns 1..max_column only and the height of rows 1..max_row
    only. *)
Theorem sizing_scope (ws : Worksheet.t) (c r : nat) :
  Worksheet.get (sized ws) r c = Worksheet.get ws r c ∧
  Worksheet.max_row (sized ws) = Worksheet.max_row ws ∧
  Worksheet.max_column (sized ws) = Worksheet.max_column ws ∧
  Worksheet.merged_cells (sized ws) = Worksheet.merged_cells ws ∧
  (¬ (1 ≤ c ≤ Worksheet.max_column ws) →
     Worksheet.column_dimensions (sized ws) !! c = Worksheet.column_dimensions ws !! c) ∧
  (¬ (1 ≤ r ≤ Worksheet.max_row ws) →
     Worksheet.row_dimensions (sized ws) !! r = Worksheet.row_dimensions ws !! r).
Proof.
  destruct (sized_facts ws) as (Hc & Hm & _ & Hh).
  split; [unfold Worksheet.get; by rewrite Hc|].
  split; [unfold Worksheet.max_row; by rewrite Hc|].
  split; [unfold Worksheet.max_column; by rewrite Hc|].
  split; [exact Hm|]. split.
  - intros Hout. unfold sized.
    destruct (heights_fold_keeps (Worksheet.iter_rows (adjust_column_widths ws))
                (adjust_column_widths ws)) as (_ & _ & Hd).
    change (Worksheet.column_dimensions (adjust_row_heights (adjust_column_widths ws))
            = Worksheet.column_dimensions (adjust_column_widths ws)) in Hd.
    rewrite Hd. apply widths_fold_outside. unfold Worksheet.columns.
    rewrite <- list_fmap_compose.
    change (fst ∘ _) with (@id nat). rewrite list_fmap_id, elem_of_seq. lia.
  - intros Hout. rewrite Hh, decide_False; [done|]. intros [? _]. lia.
Qed.

Lemma sizing_scope_witness :
  Worksheet.column_dimensions (sized (put 1 1 (VInt 0) Worksheet.empty)) !! 2 = None ∧
  Worksheet.row_dimensions (sized (put 1 1 (VInt 0) Worksheet.empty)) !! 2 = None.
Proof.
  destruct (sizing_scope (put 1 1 (VInt 0) Worksheet.empty) 2 2)
    as (_ & _ & _ & _ & Hc & Hr).
  split.
  - rewrite Hc; [reflexivity|]. vm_compute. lia.
  - rewrite Hr; [reflexivity|]. vm_compute. lia.
Defined.

(** ** Order of the nested constructions *)

(** A list comprehension raises the error of its first element that raises. *)
Lemma mapM_first_raise {A B} (f : A → result B) (before after : list A) (x : A)
    (e : exn) :
  Forall (λ y, ∃ r, f y = Ok r) before → f x = Raise e →
  mapM f (before ++ x :: after) = Raise e.
Proof.
  intros Hb Hx. induction Hb as [|y before [r Hy] _ IH]; simpl app; rewrite mapM_cons.
  - by rewrite Hx.
  - by rewrite Hy, bind_ok, IH.
Qed.

Lemma Device_from_nested (d : Device.t) (os software vulnerabilities : json) :
  Device.from_dict
    (JObj (<[py "os" := os]>
             (<[py "software" := software]>
                (<[py "vulnerabilities" := vulnerabilities]> (Device_to_dict d)))))
  = os ← OS.from_dict os;
    software ← iter software ≫= mapM (M:=result) Software.from_dict;
    vulnerabilities ← iter vulnerabilities ≫= mapM (M:=result) Vulnerability.from_dict;
    mret (Device.init (JStr (Device.name d)) (JArr (JStr <$> Device.fqdn d))
            (JArr (JStr <$> Device.ip_addresses d))
            (JArr (JStr <$> Device.mac_addresses d)) (JStr (Device.owner d))
            os software vulnerabilities).
Proof.
  unfold Device.from_dict.
  rewrite (subscript_present _ (py "name") (JStr (Device.name d))), bind_ok
    by (by vm_compute).
  rewrite (subscript_present _ (py "fqdn") (JArr (JStr <$> Device.fqdn d))), bind_ok
    by (by vm_compute).
  rewrite (subscript_present _ (py "ipAddresses")
             (JArr (JStr <$> Device.ip_addresses d))), bind_ok by (by vm_compute).
  rewrite (subscript_present _ (py "macAddresses")
             (JArr (JStr <$> Device.mac_addresses d))), bind_ok by (by vm_compute).
  rewrite (subscript_present _ (py "owner") (JStr (Device.owner d))), bind_ok
    by (by vm_compute).
  rewrite (subscript_present _ (py "os") os), bind_ok by (by vm_compute).
  destruct (OS.from_dict os) as [o|e]; [rewrite !bind_ok|done].
  rewrite (subscript_present _ (py "software") software), bind_ok by (by vm_compute).
  destruct (iter software ≫= mapM Software.from_dict) as [s|e]; [rewrite !bind_ok|done].
  by rewrite (subscript_present _ (py "vulnerabilities") vulnerabilities), bind_ok
    by (by vm_compute).
Qed.

(** X13: [Device.from_dict] builds the nested records in the order os,
    software, vulnerabilities and each list from its first element on, and
    the first error ends it.  An [os] mapping that lacks a key raises the
    [KeyError] of its first missing key whatever stands under [software] and
    [vulnerabilities]; with a good [os], the first software mapping that
    lacks a key raises the [KeyError] of its first missing key whatever
    follows it in the list and whatever stands under [vulnerabilities]; with
    good [os] and [software], so does the first vulnerability mapping that
    lacks a key. *)
Theorem nested_errors_in_order (d : Device.t) (m : gmap pystr json) (k : pystr)
    (software vulnerabilities : json) (before after : list json) :
  (first_missing (declared_keys TOS) m = Some k →
   raises TDevice
     (JObj (<[py "os" := JObj m]>
              (<[py "software" := software]>
                 (<[py "vulnerabilities" := vulnerabilities]> (Device_to_dict d)))))
     (KeyError k)) ∧
  (first_missing (declared_keys TSoftware) m = Some k →
   Forall (returns TSoftware) before →
   raises TDevice
     (JObj (<[py "software" := JArr (before ++ JObj m :: after)]>
              (<[py "vulnerabilities" := vulnerabilities]> (Device_to_dict d))))
     (KeyError k)) ∧
  (first_missing (declared_keys TVulnerability) m = Some k →
   Forall (returns TVulnerability) before →
   raises TDevice
     (JObj (<[py "vulnerabilities" := JArr (before ++ JObj m :: after)]>
              (Device_to_dict d)))
     (KeyError k)).
Proof.
  assert (OS.from_dict (JObj (OS_to_dict (Device.os d))) = Ok (Some (Device.os d)))
    as Hos.
  { rewrite <- (map_union_empty (OS_to_dict (Device.os d))). apply OS_round_trip. }
  split; [|split]; simpl raises.
  - intros Hk. by rewrite Device_from_nested, (OS_first_missing m k Hk).
  - intros Hk Hb.
    rewrite <- (insert_id (<[py "software" := _]> _) (py "os")
                  (JObj (OS_to_dict (Device.os d)))) by (by vm_compute).
    rewrite Device_from_nested, Hos, bind_ok. simpl iter. rewrite bind_ok.
    by rewrite (mapM_first_raise Software.from_dict before after (JObj m) (KeyError k)
                  Hb (Software_first_missing m k Hk)).
  - intros Hk Hb.
    rewrite <- (insert_id (<[py "vulnerabilities" := _]> _) (py "software")
                  (JArr ((λ software, JObj (Software_to_dict software))
                           <$> Device.software d))) by (by vm_compute).
    rewrite <- (insert_id (<[py "software" := _]> _) (py "os")
                  (JObj (OS_to_dict (Device.os d)))) by (by vm_compute).
    rewrite Device_from_nested, Hos, bind_ok. simpl iter. rewrite !bind_ok.
    rewrite (mapM_round_trip Software.from_dict
               (λ software, JObj (Software_to_dict software))), bind_ok.
    2: { intros x. rewrite <- (map_union_empty (Software_to_dict x)).
         apply Software_round_trip. }
    by rewrite (mapM_first_raise Vulnerability.from_dict before after (JObj m)
                  (KeyError k) Hb (Vulnerability_first_missing m k Hk)).
Qed.

Lemma nested_errors_in_order_witness :
  Device.from_dict
    (JObj (<[py "os" := JObj os_without_name]>
             (<[py "software" := JInt 0]>
                (<[py "vulnerabilities" := JInt 0]> (Device_to_dict host1)))))
  = Raise (KeyError (py "name")) ∧
  Device.from_dict
    (JObj (<[py "software" :=
               JArr ([JObj (Software_to_dict nginx)]
                       ++ JObj software_without_name :: [JInt 0])]>
             (<[py "vulnerabilities" := JInt 0]> (Device_to_dict host1))))
  = Raise (KeyError (py "name")).
Proof.
  destruct (nested_errors_in_order host1 os_without_name (py "name") (JInt 0) (JInt 0)
              [] []) as (Hos & _).
  destruct (nested_errors_in_order host1 software_without_name (py "name") (JInt 0)
              (JInt 0) [JObj (Software_to_dict nginx)] [JInt 0]) as (_ & Hsoftware & _).
  split.
  - apply Hos. vm_compute. reflexivity.
  - apply Hsoftware; [vm_compute; reflexivity|].
    constructor; [|constructor]. eexists. vm_compute. reflexivity.
Defined.

(** ** The sheets of the workbook *)

(** X14: whatever the devices, the workbook saved has exactly the sheets
    Device, Software and Vulnerability, in this order; the sheet titled
    Sheet that a new workbook comes with is not among them. *)
Theorem workbook_sheet_names (devices : list Device.t) :
  Workbook.sheetnames (workbook devices)
  = [py "Device"; py "Software"; py "Vulnerability"] ∧
  Workbook.sheet (workbook devices) (py "Sheet") = None.
Proof. by rewrite workbook_sheets. Qed.
